(** * Monthly temperature series ([code/data.py])

    A shallow embedding of the [Series] class and of the module-level
    helpers of [code/data.py], followed by the properties of the class
    that its description states.

    Python integers are unbounded, so years and lengths are in [Z].
    Monthly values are IEEE binary64 floats ([PrimFloat.float]) and [==]
    on them is [PrimFloat.eqb].  Python lists are mutable objects with an
    identity: they live in a store indexed by locations, an attribute
    such as [self.series] holds a location, and every list display, slice
    or [list(...)] call allocates a new location.  A list passed as an
    argument is passed by reference. *)

From Stdlib Require Import ZArith List Lia PrimFloat Sorted.
From stdpp Require Import base gmap list.

Local Open Scope Z_scope.

(** ** Module-level values *)

(** [MISSING = 9999.0] *)
Definition MISSING : float := 9999%float.

(** [def invalid(v): return v == MISSING] *)
Definition invalid (v : float) : bool := PrimFloat.eqb v MISSING.

(** [def valid(v): return not invalid(v)] *)
Definition valid (v : float) : bool := negb (invalid v).

(** ** The list primitives the class uses, on list contents *)

(** [len(l)] *)
Definition len (l : list float) : Z := Z.of_nat (length l).

(** [l.count(x)]: the number of items [v] with [v == x]. *)
Definition count (x : float) (l : list float) : Z :=
  Z.of_nat (length (List.filter (fun v => PrimFloat.eqb v x) l)).

(** [[x] * n]: the empty list when [n <= 0]. *)
Definition times (x : float) (n : Z) : list float := replicate (Z.to_nat n) x.

(** Normalisation of one bound of a slice over a list of length [n]:
    a negative bound counts from the end, and both are clamped to
    [0 .. n]. *)
Definition slice_index (n i : Z) : Z :=
  if i <? 0 then Z.max (i + n) 0 else Z.min i n.

(** [l[start:stop]] *)
Definition slice (l : list float) (start stop : Z) : list float :=
  let lo := slice_index (len l) start in
  let hi := slice_index (len l) stop in
  take (Z.to_nat (hi - lo)) (drop (Z.to_nat lo) l).

(** ** Objects and the store *)

Abbreviation loc := positive.

(** The state of the program as far as one [Series] instance is
    concerned: the entries of the instance's [__dict__] that the methods
    read, and the store of list objects.  [first_year] is an integer (a
    value); [series] is a reference to a list object;
    [dict_missing_year] is the entry [missing_year] of the instance,
    when it has one. *)
Record state : Type := State {
  first_year : Z;
  series : loc;
  dict_missing_year : option loc;
  heap : gmap loc (list float)
}.

(** The class attribute [missing_year = [MISSING]*12] is one list object,
    created when the class body runs, before any instance exists. *)
Definition missing_year : loc := 1%positive.

Definition module_heap : gmap loc (list float) :=
  {[ missing_year := times MISSING 12 ]}.

(** [self.missing_year]: the instance's own entry when there is one,
    the class attribute otherwise. *)
Definition self_missing_year (s : state) : loc :=
  default missing_year (dict_missing_year s).

(** The three [assert] statements of [add_year], in source order.  Python
    raises the same [AssertionError] for each; the tag records which
    statement raised it. *)
Inductive assertion : Type :=
  | assert_data_len      (* assert len(data) == 12 *)
  | assert_whole_years   (* assert len(self) % 12 == 0 *)
  | assert_next_year.    (* assert year == self.last_year + 1 *)

Inductive outcome (A : Type) : Type :=
  | Return (a : A)
  | AssertionError (which : assertion).
Arguments Return {A} a.
Arguments AssertionError {A} which.

(** A method body: it runs in a state and ends with a value or an
    exception, in a state that keeps every mutation made before the
    exception was raised. *)
Definition M (A : Type) : Type := state -> outcome A * state.

Definition ret {A} (a : A) : M A := fun s => (Return a, s).

Definition bind {A B} (m : M A) (f : A -> M B) : M B :=
  fun s =>
    match m s with
    | (Return a, s') => f a s'
    | (AssertionError w, s') => (AssertionError w, s')
    end.

Declare Scope py_scope.
Delimit Scope py_scope with py.
Notation "x <- m ;; k" := (bind m (fun x => k))
  (at level 100, m at next level, right associativity) : py_scope.
Notation "m ;;; k" := (bind m (fun _ => k))
  (at level 100, right associativity) : py_scope.
Local Open Scope py_scope.

(** [assert b] *)
Definition assert (b : bool) (w : assertion) : M unit :=
  fun s => if b then (Return tt, s) else (AssertionError w, s).

Definition eval {A} (m : M A) (s : state) : outcome A := fst (m s).
Definition exec {A} (m : M A) (s : state) : state := snd (m s).

(** Reading and writing the store and the attributes. *)
Definition contents (s : state) (l : loc) : list float := heap s !!! l.

Definition store (l : loc) (v : list float) (s : state) : state :=
  State (first_year s) (series s) (dict_missing_year s) (<[l := v]> (heap s)).

Definition read (l : loc) : M (list float) := fun s => (Return (contents s l), s).

(** A new list object with contents [v]. *)
Definition alloc (v : list float) : M loc :=
  fun s => let l := fresh (dom (heap s)) in (Return l, store l v s).

(** [self.first_year] and [self.first_year = y] *)
Definition get_first_year : M Z := fun s => (Return (first_year s), s).
Definition set_first_year (y : Z) : M unit :=
  fun s => (Return tt, State y (series s) (dict_missing_year s) (heap s)).

(** [self.series] as contents, and [self.series.extend(xs)], which
    mutates the list object in place. *)
Definition get_series : M (list float) := fun s => read (series s) s.
Definition series_extend (xs : list float) : M unit :=
  fun s => (Return tt, store (series s) (contents s (series s) ++ xs) s).

(** The contents of [self.series] in a state. *)
Definition series_of (s : state) : list float := contents s (series s).

(** [self.missing_year] as contents. *)
Definition get_missing_year : M (list float) :=
  fun s => read (self_missing_year s) s.

(** A sequence passed as an argument.  Python passes a reference: the
    argument is a list object of the store, which may be the very list
    [self.series], or a sequence that no call changes (a tuple, say),
    given by its items. *)
Inductive sequence : Type :=
  | by_value (v : list float)
  | list_at (l : loc).

#[warnings="-uniform-inheritance"]
Coercion by_value : list >-> sequence.

(** The items of a sequence in a state. *)
Definition items (s : state) (data : sequence) : list float :=
  match data with
  | by_value v => v
  | list_at l => contents s l
  end.

(** [len(data)] and the items [extend(data)] reads, each at the moment
    it runs. *)
Definition seq_len (data : sequence) : M Z :=
  fun s => (Return (len (items s data)), s).
Definition seq_items (data : sequence) : M (list float) :=
  fun s => (Return (items s data), s).

(** The argument is not the list [self.series] itself. *)
Definition separate (s : state) (data : sequence) : Prop :=
  match data with
  | by_value _ => True
  | list_at l => l <> series s
  end.

(** ** The class [Series] *)

(** The keyword arguments [**k] of the constructor that a method reads
    later: [series=] and [missing_year=], each a list object of the
    store.  [first_year] cannot be among them (Python rejects the call),
    other keys are stored and never read, and a key that names a method
    would replace that method: such calls are outside this model. *)
Record keywords : Type := Keywords {
  kw_series : option loc;
  kw_missing_year : option loc
}.

(** [Series(first_year)]: no keyword argument. *)
Definition no_keywords : keywords := Keywords None None.

(** [__init__(self, first_year, **k)], run in a store [h]: [[]] is a new
    list object, bound to [self.series]; [self.__dict__.update(k)] then
    rebinds [series] when [k] has that key, and gives the instance an
    entry [missing_year], which shadows the class attribute, when [k]
    has that one. *)
Definition __init__
    (first_year : Z) (k : keywords) (h : gmap loc (list float)) : state :=
  let l := fresh (dom h) in
  State first_year (default l (kw_series k)) (kw_missing_year k)
    (<[l := []]> h).

(** [__len__] *)
Definition __len__ : M Z :=
  l <- get_series ;; ret (len l).

(** The property [last_year]. *)
Definition last_year : M Z :=
  fy <- get_first_year ;;
  l <- get_series ;;
  ret (fy + len l / 12 - 1).

Definition good_count : M Z :=
  l <- get_series ;;
  let bad_count := count MISSING l in
  l' <- get_series ;;
  ret (len l' - bad_count).

(** [self.first_year <= year <= self.last_year]: the second comparison is
    evaluated only when the first holds. *)
Definition has_data_for_year (year : Z) : M bool :=
  fy <- get_first_year ;;
  if fy <=? year then
    ly <- last_year ;; ret (year <=? ly)
  else ret false.

(** The result is a new list object on both branches: a slice and
    [list(...)] both build one. *)
Definition get_a_year (year : Z) : M loc :=
  b <- has_data_for_year year ;;
  if b then
    fy <- get_first_year ;;
    let start := (year - fy) * 12 in
    let stop := start + 12 in
    l <- get_series ;;
    alloc (slice l start stop)
  else
    t <- get_missing_year ;;
    alloc t.

(** [not self.first_year] on an integer. *)
Definition falsy (y : Z) : bool := y =? 0.

(** [data] is read twice, by [len(data)] on entry and by
    [extend(data)] at the end; when [data] is the list [self.series]
    itself, the padding in between has lengthened it.  The [assert]
    statements are executed: the interpreter runs without [-O]. *)
Definition add_year (year : Z) (data : sequence) : M unit :=
  n <- seq_len data ;;
  assert (n =? 12) assert_data_len ;;;
  (fy <- get_first_year ;;
   if falsy fy then set_first_year year
   else
     ly <- last_year ;;
     let gap := year - ly - 1 in
     if gap >? 0 then series_extend (times MISSING (gap * 12))
     else ret tt) ;;;
  n <- __len__ ;;
  assert (n mod 12 =? 0) assert_whole_years ;;;
  fy <- get_first_year ;;
  if year <? fy then ret tt
  else
    ly <- last_year ;;
    assert (year =? ly + 1) assert_next_year ;;;
    xs <- seq_items data ;;
    series_extend xs.

(** The value of the list a method returns, read in the state the method
    leaves. *)
Definition returned_list (m : M loc) (s : state) : option (list float) :=
  match m s with
  | (Return r, s') => Some (contents s' r)
  | (AssertionError _, _) => None
  end.

(** A caller that feeds a series year by year, as the loaders do:
    [for year, data in calls: series.add_year(year, data)].  The first
    exception ends the loop. *)
Fixpoint add_years (calls : list (Z * sequence)) : M unit :=
  match calls with
  | [] => ret tt
  | (year, data) :: rest => add_year year data ;;; add_years rest
  end.

(** ** Invariants of a [Series] object *)

(** "A series always consists of a whole number of years." *)
Definition whole_years (s : state) : Prop := len (series_of s) mod 12 = 0.

(** The object graph is as the class leaves it: the template that
    [self.missing_year] refers to holds twelve [MISSING], and
    [self.series] is a live list object distinct from the template. *)
Definition wf (s : state) : Prop :=
  heap s !! self_missing_year s = Some (times MISSING 12)
  /\ series s <> self_missing_year s
  /\ is_Some (heap s !! series s).

(** [first_year] is set, or nothing has been stored yet: the stored
    months are anchored at [first_year]. *)
Definition anchored (s : state) : Prop :=
  first_year s <> 0 \/ series_of s = [].

(** The states a program can bring a [Series] into when it leaves
    [series] to the class: it constructs the instance without the
    keyword [series=], with a template of twelve [MISSING] (the class
    attribute, or a list given as [missing_year=]), calls [add_year]
    with any argument, the list [self.series] itself included (the state
    an [AssertionError] leaves behind counts: the caller may catch it
    and go on) and [get_a_year], and mutates list objects other than the
    two the class keeps to itself. *)
Inductive reachable : state -> Prop :=
  | reach_init (fy : Z) (k : keywords) (h : gmap loc (list float)) :
      kw_series k = None ->
      h !! default missing_year (kw_missing_year k)
        = Some (times MISSING 12) ->
      reachable (__init__ fy k h)
  | reach_add_year (s : state) (year : Z) (data : sequence) :
      reachable s -> reachable (exec (add_year year data) s)
  | reach_get_a_year (s : state) (year : Z) :
      reachable s -> reachable (exec (get_a_year year) s)
  | reach_store (s : state) (l : loc) (v : list float) :
      reachable s -> l <> series s -> l <> self_missing_year s ->
      reachable (store l v s).

(** ** Sample data *)

(** Twelve months with the same value: [[x]*12]. *)
Definition year_of (x : float) : list float := times x 12.

(** [Series(first_year=1900)] right after the module is loaded. *)
Definition series_1900 : state := __init__ 1900 no_keywords module_heap.

(** [Series(first_year=0)], then [add_year(0, [1.0]*12)]. *)
Definition series_year_zero : state :=
  exec (add_year 0 (year_of 1%float)) (__init__ 0 no_keywords module_heap).

(** A list the caller built before constructing the series, and the
    store that holds it next to the class template. *)
Definition caller_list : loc := 2%positive.

Definition caller_heap (v : list float) : gmap loc (list float) :=
  <[caller_list := v]> module_heap.

(** [Series(1900, series=v)] and [Series(1900, missing_year=v)]. *)
Definition series_from_keyword (v : list float) : state :=
  __init__ 1900 (Keywords (Some caller_list) None) (caller_heap v).

Definition series_with_own_template (v : list float) : state :=
  __init__ 1900 (Keywords None (Some caller_list)) (caller_heap v).

(** [Series(first_year=1900)], then the years 1900, 1901 and 1903. *)
Definition series_with_gap : state :=
  exec (add_year 1900 (year_of 1%float) ;;;
        add_year 1901 (year_of 2%float) ;;;
        add_year 1903 (year_of 3%float)) series_1900.

(** ** Proof support *)

Ltac py_unfold :=
  unfold eval, exec, returned_list, add_year, get_a_year, has_data_for_year,
    good_count, last_year, __len__, get_series, series_extend,
    get_missing_year, seq_len, seq_items, items,
    set_first_year, get_first_year, alloc, read, assert, bind, ret, falsy in *.

Ltac py_cases :=
  repeat match goal with
  | H : context [if ?b then _ else _] |- _ => destruct b eqn:?; simpl in H
  | |- context [if ?b then _ else _] => destruct b eqn:?; simpl
  end.

Ltac bool_to_prop :=
  repeat match goal with
  | H : (_ =? _) = true |- _ => apply Z.eqb_eq in H
  | H : (_ =? _) = false |- _ => apply Z.eqb_neq in H
  | H : (_ <? _) = true |- _ => apply Z.ltb_lt in H
  | H : (_ <? _) = false |- _ => apply Z.ltb_ge in H
  | H : (_ <=? _) = true |- _ => apply Z.leb_le in H
  | H : (_ <=? _) = false |- _ => apply Z.leb_gt in H
  | H : (_ >? _) = true |- _ => rewrite Z.gtb_ltb in H; apply Z.ltb_lt in H
  | H : (_ >? _) = false |- _ => rewrite Z.gtb_ltb in H; apply Z.ltb_ge in H
  end.

Ltac store_simpl :=
  unfold series_of, contents, store in *; simpl in *;
  rewrite ?lookup_total_insert_eq in *.

Ltac zsolve := Z.div_mod_to_equations; lia.

(** *** Lists *)

Lemma len_app (l k : list float) : len (l ++ k) = len l + len k.
Proof. unfold len. rewrite length_app. lia. Qed.

Lemma len_times x n : 0 <= n -> len (times x n) = n.
Proof. intros Hn. unfold len, times. rewrite length_replicate. lia. Qed.

Lemma len_nonneg (l : list float) : 0 <= len l.
Proof. unfold len. lia. Qed.

Lemma len_nil_inv (l : list float) : len l = 0 -> l = [].
Proof. unfold len. destruct l; simpl; [done | lia]. Qed.

(** Every item either equals [MISSING] or is valid. *)
Lemma count_MISSING_valid (l : list float) :
  len l = count MISSING l + Z.of_nat (length (List.filter valid l)).
Proof.
  unfold len, count. induction l as [|v l IH]; simpl; [done|].
  unfold valid at 1, invalid at 1.
  destruct (PrimFloat.eqb v MISSING); simpl length; lia.
Qed.

Lemma count_app x (l k : list float) : count x (l ++ k) = count x l + count x k.
Proof. unfold count. rewrite List.filter_app, length_app. lia. Qed.

Lemma count_MISSING_times n : 0 <= n -> count MISSING (times MISSING n) = n.
Proof.
  intros Hn. unfold count, times.
  assert (H : forall k : nat,
             List.filter (fun v => PrimFloat.eqb v MISSING) (replicate k MISSING)
             = replicate k MISSING).
  { induction k as [|k IH]; simpl; [done|].
    change (PrimFloat.eqb MISSING MISSING) with true. by rewrite IH. }
  rewrite H, length_replicate. lia.
Qed.

Lemma count_MISSING_all_valid (l : list float) :
  Forall (fun v => valid v = true) l -> count MISSING l = 0.
Proof.
  unfold count. induction 1 as [|v l Hv _ IH]; simpl; [done|].
  unfold valid, invalid in Hv. destruct (PrimFloat.eqb v MISSING); [done|exact IH].
Qed.

(** *** The store *)

Lemma contents_store_eq s l v : contents (store l v s) l = v.
Proof. unfold contents, store. simpl. by rewrite lookup_total_insert_eq. Qed.

Lemma contents_store_ne s l l' v :
  l <> l' -> contents (store l v s) l' = contents s l'.
Proof.
  intros Hne. unfold contents, store. simpl. by rewrite lookup_total_insert_ne.
Qed.

Lemma store_store s l v w : store l w (store l v s) = store l w s.
Proof. unfold store. simpl. by rewrite insert_insert_eq. Qed.

Lemma fresh_not_live (h : gmap loc (list float)) l :
  is_Some (h !! l) -> fresh (dom h) <> l.
Proof.
  intros Hl Heq. apply elem_of_dom in Hl. rewrite <- Heq in Hl.
  by apply is_fresh in Hl.
Qed.

Lemma nonempty_live (h : gmap loc (list float)) l :
  h !!! l <> [] -> is_Some (h !! l).
Proof.
  rewrite lookup_total_alt. destruct (h !! l); [eauto | done].
Qed.

Lemma series_of_store_ne s l v :
  l <> series s -> series_of (store l v s) = series_of s.
Proof. intros Hne. unfold series_of. simpl. by apply contents_store_ne. Qed.

(** *** The six ways through [add_year] *)

(** For a series that holds a whole number of years these cases are
    exhaustive. *)

Ltac py_run :=
  py_unfold; unfold whole_years, anchored, series_of, contents, store in *;
  simpl in *.

Ltac py_finish :=
  bool_to_prop; rewrite ?lookup_total_insert_eq, ?insert_insert_eq, ?len_app in *;
  try done; try zsolve.

Lemma add_year_bad_len s year data :
  len data <> 12 ->
  add_year year data s = (AssertionError assert_data_len, s).
Proof.
  intros Hlen. py_run.
  destruct (len data =? 12) eqn:E; [bool_to_prop; done | done].
Qed.

Lemma add_year_unset s year data :
  len data = 12 -> first_year s = 0 -> series_of s = [] ->
  add_year year data s
  = (Return tt, store (series s) data (State year (series s) (dict_missing_year s) (heap s))).
Proof.
  intros Hlen Hfy Hnil. destruct s as [fy sr my h]. py_run. subst fy.
  rewrite Hlen. simpl. rewrite Hnil. simpl.
  rewrite Z.ltb_irrefl. simpl. rewrite Hnil.
  destruct (year =? _) eqn:E; simpl.
  - by rewrite Hnil.
  - bool_to_prop. exfalso. apply E. change (len []) with 0. zsolve.
Qed.

Lemma add_year_unset_nonempty s year data :
  len data = 12 -> first_year s = 0 -> whole_years s -> series_of s <> [] ->
  add_year year data s
  = (AssertionError assert_next_year, State year (series s) (dict_missing_year s) (heap s)).
Proof.
  intros Hlen Hfy Hwy Hne. destruct s as [fy sr my h]. py_run. subst fy.
  rewrite Hlen. simpl. rewrite Hwy. simpl.
  rewrite Z.ltb_irrefl. simpl.
  destruct (year =? _) eqn:E; [|done]. bool_to_prop.
  assert (len (h !!! sr) = 0) as H0 by zsolve.
  by apply len_nil_inv in H0.
Qed.

Lemma add_year_ignored s year data :
  len data = 12 -> first_year s <> 0 -> whole_years s -> year < first_year s ->
  add_year year data s = (Return tt, s).
Proof.
  intros Hlen Hfy Hwy Hlt. destruct s as [fy sr my h]. py_run.
  rewrite Hlen. simpl.
  pose proof (len_nonneg (h !!! sr)).
  py_cases; py_finish.
Qed.

Lemma add_year_repeat s year data :
  len data = 12 -> first_year s <> 0 -> whole_years s ->
  first_year s <= year <= first_year s + len (series_of s) / 12 - 1 ->
  add_year year data s = (AssertionError assert_next_year, s).
Proof.
  intros Hlen Hfy Hwy Hin. destruct s as [fy sr my h]. py_run.
  rewrite Hlen. simpl.
  py_cases; py_finish.
Qed.

Lemma add_year_append s year data :
  len data = 12 -> first_year s <> 0 -> whole_years s ->
  first_year s + len (series_of s) / 12 - 1 < year ->
  add_year year data s
  = (Return tt,
     store (series s)
       (series_of s
        ++ times MISSING ((year - (first_year s + len (series_of s) / 12 - 1) - 1) * 12)
        ++ data) s).
Proof.
  intros Hlen Hfy Hwy Hlt. destruct s as [fy sr my h]. py_run.
  rewrite Hlen. simpl.
  pose proof (len_nonneg (h !!! sr)).
  py_cases; py_finish.
  all: try rewrite len_times in * by lia.
  all: try zsolve.
  - by rewrite app_assoc.
  - replace (_ * 12) with 0 by lia. done.
Qed.

(** *** The read accessors *)

Lemma has_data_for_year_run s year :
  has_data_for_year year s
  = (Return ((first_year s <=? year)
             && (year <=? first_year s + len (series_of s) / 12 - 1)), s).
Proof.
  py_run. destruct (first_year s <=? year); done.
Qed.

(** What [get_a_year] does in one step: it allocates one new list. *)
Lemma get_a_year_run s year :
  get_a_year year s
  = let v :=
      if (first_year s <=? year)
         && (year <=? first_year s + len (series_of s) / 12 - 1)
      then slice (series_of s) ((year - first_year s) * 12)
             ((year - first_year s) * 12 + 12)
      else contents s (self_missing_year s) in
    (Return (fresh (dom (heap s))), store (fresh (dom (heap s))) v s).
Proof.
  py_run. destruct (first_year s <=? year); simpl; [|done].
  destruct (year <=? _); done.
Qed.

Lemma returned_list_get_a_year s year :
  returned_list (get_a_year year) s
  = Some (if (first_year s <=? year)
             && (year <=? first_year s + len (series_of s) / 12 - 1)
          then slice (series_of s) ((year - first_year s) * 12)
                 ((year - first_year s) * 12 + 12)
          else contents s (self_missing_year s)).
Proof.
  unfold returned_list. rewrite get_a_year_run. simpl.
  by rewrite contents_store_eq.
Qed.

(** A slice of twelve months that lies inside the list. *)
Lemma slice_inside (l : list float) (start : Z) :
  0 <= start -> start + 12 <= len l ->
  slice l start (start + 12) = take 12 (drop (Z.to_nat start) l).
Proof.
  intros H0 Hle. unfold slice, slice_index.
  destruct (start <? 0) eqn:E1; bool_to_prop; [lia|].
  destruct (start + 12 <? 0) eqn:E2; bool_to_prop; [lia|].
  rewrite !Z.min_l by lia. f_equal. lia.
Qed.

Lemma len_slice_inside (l : list float) (start : Z) :
  0 <= start -> start + 12 <= len l -> len (slice l start (start + 12)) = 12.
Proof.
  intros H0 Hle. rewrite slice_inside by done. unfold len in *.
  rewrite length_take, length_drop. lia.
Qed.

Lemma lookup_slice_inside (l : list float) (start i : Z) :
  0 <= start -> start + 12 <= len l -> 0 <= i < 12 ->
  slice l start (start + 12) !! Z.to_nat i = l !! Z.to_nat (start + i).
Proof.
  intros H0 Hle Hi. rewrite slice_inside by done.
  rewrite lookup_take_lt by lia. rewrite lookup_drop. f_equal. lia.
Qed.

(** A year with data lies inside the list. *)
Lemma has_data_inside s year :
  eval (has_data_for_year year) s = Return true ->
  0 <= (year - first_year s) * 12
  /\ (year - first_year s) * 12 + 12 <= len (series_of s).
Proof.
  unfold eval. rewrite has_data_for_year_run. simpl. intros [= H].
  apply andb_prop in H as [H1 H2]. bool_to_prop. zsolve.
Qed.

(** *** The constructor *)

Lemma series_of_init fy k h :
  kw_series k = None -> series_of (__init__ fy k h) = [].
Proof.
  intros Hk. unfold series_of, __init__, contents. simpl. rewrite Hk. simpl.
  by rewrite lookup_total_insert_eq.
Qed.

Lemma init_wf fy k h :
  kw_series k = None ->
  h !! default missing_year (kw_missing_year k) = Some (times MISSING 12) ->
  wf (__init__ fy k h).
Proof.
  intros Hk Ht.
  assert (fresh (dom h) <> default missing_year (kw_missing_year k)) as Hne.
  { apply fresh_not_live. by rewrite Ht. }
  unfold wf, __init__, self_missing_year. simpl. rewrite Hk. simpl. split_and!.
  - by rewrite lookup_insert_ne.
  - done.
  - rewrite lookup_insert_eq. eauto.
Qed.

(** *** [add_year], case by case *)

(** The year after the last stored one, read off the state. *)
Lemma last_year_run s :
  last_year s = (Return (first_year s + len (series_of s) / 12 - 1), s).
Proof. by py_run. Qed.

Lemma add_year_cases s year data :
  whole_years s ->
  let ly := first_year s + len (series_of s) / 12 - 1 in
  (len data <> 12
   /\ add_year year data s = (AssertionError assert_data_len, s))
  \/ (len data = 12 /\ first_year s = 0 /\ series_of s = []
      /\ add_year year data s
         = (Return tt, store (series s) data (State year (series s) (dict_missing_year s) (heap s))))
  \/ (len data = 12 /\ first_year s = 0 /\ series_of s <> []
      /\ add_year year data s
         = (AssertionError assert_next_year, State year (series s) (dict_missing_year s) (heap s)))
  \/ (len data = 12 /\ first_year s <> 0 /\ year < first_year s
      /\ add_year year data s = (Return tt, s))
  \/ (len data = 12 /\ first_year s <> 0 /\ first_year s <= year <= ly
      /\ add_year year data s = (AssertionError assert_next_year, s))
  \/ (len data = 12 /\ first_year s <> 0 /\ ly < year
      /\ add_year year data s
         = (Return tt,
            store (series s)
              (series_of s ++ times MISSING ((year - ly - 1) * 12) ++ data) s)).
Proof.
  intros Hwy ly.
  destruct (decide (len data = 12)) as [Hlen|Hlen];
    [|left; eauto using add_year_bad_len].
  destruct (decide (first_year s = 0)) as [Hfy|Hfy].
  - destruct (series_of s) as [|v l] eqn:Hs.
    + right; left. split_and!; try done. by apply add_year_unset.
    + right; right; left. split_and!; try done.
      apply add_year_unset_nonempty; try done. by rewrite Hs.
  - destruct (decide (year < first_year s)) as [Hlt|Hge].
    { do 3 right; left. eauto using add_year_ignored. }
    destruct (decide (year <= ly)) as [Hle|Hgt].
    + do 4 right; left. split_and!; try done; [lia|].
      apply add_year_repeat; try done. subst ly. lia.
    + do 5 right. split_and!; try done; [lia|].
      apply add_year_append; try done. subst ly. lia.
Qed.

(** *** Arguments passed by reference *)

Lemma lookup_total_other (h : gmap loc (list float)) l l' v :
  l <> l' -> <[l := v]> h !!! l' = h !!! l'.
Proof. apply lookup_total_insert_ne. Qed.

(** What any call to [add_year] does to the state, whatever its
    argument and its outcome. *)
Lemma add_year_effect (s : state) (year : Z) (data : sequence) :
  exists k,
    series_of (exec (add_year year data) s) = series_of s ++ k
    /\ len k mod 12 = 0
    /\ series (exec (add_year year data) s) = series s
    /\ (forall l, l <> series s ->
          heap (exec (add_year year data) s) !! l = heap s !! l)
    /\ (first_year s <> 0 ->
          first_year (exec (add_year year data) s) = first_year s)
    /\ dict_missing_year (exec (add_year year data) s) = dict_missing_year s
    /\ (is_Some (heap s !! series s) ->
          is_Some (heap (exec (add_year year data) s) !! series s)).
Proof.
  destruct s as [fy sr my h].
  destruct data as [v|d];
    [|destruct (decide (sr = d)) as [<-|Hd]].
  all: py_run; py_cases; bool_to_prop;
    rewrite ?lookup_total_insert_eq in *;
    try rewrite !(lookup_total_other _ sr d) in * by done.
  all: match goal with
       | |- exists k, ?a = ?a ++ k /\ _ => exists []
       | |- exists k, (?a ++ ?p) ++ ?d = ?a ++ k /\ _ => exists (p ++ d)
       | |- exists k, ?a ++ ?p = ?a ++ k /\ _ => exists p
       end.
  all: split_and!;
    [ by rewrite ?app_nil_r, ?app_assoc
    | rewrite ?len_app, ?len_times by lia; try done; zsolve
    | done
    | intros l Hne; by rewrite ?lookup_insert_ne
    | done
    | done
    | rewrite ?lookup_insert_eq; eauto ].
Qed.

Lemma contents_lookup s s' l :
  heap s' !! l = heap s !! l -> contents s' l = contents s l.
Proof. intros H. unfold contents. by rewrite !lookup_total_alt, H. Qed.

(** A list object other than [self.series] is read as if its items had
    been passed by value. *)
Lemma add_year_separate s year data :
  separate s data ->
  add_year year data s = add_year year (by_value (items s data)) s.
Proof.
  destruct data as [v|d]; [done|]. destruct s as [fy sr my h].
  unfold separate. simpl. intros Hd. assert (sr <> d) as Hd' by congruence.
  py_run. py_cases; rewrite ?(lookup_total_other _ sr d) by done; done.
Qed.

(** The outcome of a call does not depend on how the argument was
    passed: it depends on the items of [data] on entry only. *)
Lemma add_year_eval_by_value s year data :
  eval (add_year year data) s
  = eval (add_year year (by_value (items s data))) s.
Proof.
  destruct data as [v|d]; [done|]. destruct s as [fy sr my h].
  py_run. py_cases; done.
Qed.

(** The call [s.add_year(year, s.series)], the list holding one year. *)
Lemma add_year_aliased s year :
  len (series_of s) = 12 -> first_year s <> 0 -> first_year s < year ->
  add_year year (list_at (series s)) s
  = (Return tt,
     let padded :=
       series_of s ++ times MISSING ((year - first_year s - 1) * 12) in
     store (series s) (padded ++ padded) s).
Proof.
  intros Hl Hfy Hlt. destruct s as [fy sr my h]. py_run. rewrite Hl. simpl.
  py_cases; bool_to_prop;
    rewrite ?lookup_total_insert_eq, ?insert_insert_eq, ?len_app in *;
    try rewrite len_times in * by lia; try done; try zsolve.
  all: rewrite Hl in *; change (12 / 12) with 1 in *.
  - by replace (year - (fy + 1 - 1) - 1) with (year - fy - 1) by lia.
  - replace ((year - fy - 1) * 12) with 0 by lia.
    change (times MISSING 0) with (@nil float). by rewrite !app_nil_r.
Qed.

(** *** The invariants hold in every reachable state *)

Lemma store_wf s l v :
  wf s -> l <> self_missing_year s -> wf (store l v s).
Proof.
  intros (Ht & Hne & Hlive) Hl. unfold wf, store, self_missing_year in *.
  simpl. split_and!.
  - by rewrite lookup_insert_ne.
  - done.
  - rewrite lookup_insert. case_decide; eauto.
Qed.

Lemma store_whole_years s l v :
  whole_years s -> l <> series s -> whole_years (store l v s).
Proof. intros Hwy Hl. unfold whole_years. by rewrite series_of_store_ne. Qed.

Lemma fresh_not_internal s :
  wf s ->
  fresh (dom (heap s)) <> series s
  /\ fresh (dom (heap s)) <> self_missing_year s.
Proof.
  intros (Ht & _ & Hlive). split; apply fresh_not_live; [done|]. by rewrite Ht.
Qed.

Lemma add_year_invariant s year (data : sequence) :
  wf s -> whole_years s ->
  wf (exec (add_year year data) s) /\ whole_years (exec (add_year year data) s).
Proof.
  intros (Ht & Hne & Hlive) Hwy.
  destruct (add_year_effect s year data)
    as (k & Hs & Hk & Hsr & Hother & _ & Hmy & Hl).
  split.
  - unfold wf, self_missing_year in *. rewrite Hmy, Hsr. split_and!.
    + rewrite Hother by done. done.
    + done.
    + by apply Hl.
  - unfold whole_years in *. rewrite Hs, len_app. zsolve.
Qed.

Lemma get_a_year_invariant s year :
  wf s -> whole_years s ->
  wf (exec (get_a_year year) s) /\ whole_years (exec (get_a_year year) s).
Proof.
  intros Hwf Hwy. destruct (fresh_not_internal s Hwf) as [H1 H2].
  unfold exec. rewrite get_a_year_run. simpl.
  split; [by apply store_wf | by apply store_whole_years].
Qed.

(** X12. In every state a program can reach when it constructs the
    [Series] without the keyword [series=] and with a template of twelve
    [MISSING] (also after a raised assertion, after a call that passes
    the list [self.series] itself, and after the caller has mutated
    lists it got from [get_a_year]) the series holds a whole number of
    years, the template that [self.missing_year] refers to still holds
    twelve [MISSING], and [self.series] is a live list object other than
    the template. *)
Theorem reachable_invariant s : reachable s -> wf s /\ whole_years s.
Proof.
  induction 1 as [fy k h Hk Ht|s year data _ [Hwf Hwy]|s year _ [Hwf Hwy]
                 |s l v _ [Hwf Hwy] Hl1 Hl2].
  - split; [by apply init_wf|]. unfold whole_years. by rewrite series_of_init.
  - by apply add_year_invariant.
  - by apply get_a_year_invariant.
  - split; [by apply store_wf | by apply store_whole_years].
Qed.

(** Once set, [first_year] never changes, so a series constructed with
    a set [first_year] stays anchored. *)
Lemma add_year_keeps_first_year s year (data : sequence) :
  first_year s <> 0 ->
  first_year (exec (add_year year data) s) = first_year s.
Proof.
  intros Hfy. destruct (add_year_effect s year data) as (k & H). by apply H.
Qed.

(** The sample states are states a program reaches. *)
Lemma module_heap_template : module_heap !! missing_year = Some (times MISSING 12).
Proof. reflexivity. Qed.

Lemma series_1900_reachable : reachable series_1900.
Proof. by apply reach_init. Qed.

Lemma series_year_zero_reachable : reachable series_year_zero.
Proof. by apply reach_add_year, reach_init. Qed.

Lemma series_with_gap_reachable : reachable series_with_gap.
Proof.
  unfold series_with_gap, exec, bind.
  pose proof (reach_add_year _ 1900 (year_of 1%float) series_1900_reachable) as H1.
  pose proof (reach_add_year _ 1901 (year_of 2%float) H1) as H2.
  pose proof (reach_add_year _ 1903 (year_of 3%float) H2) as H3.
  unfold exec in H1, H2, H3.
  destruct (add_year 1900 (year_of 1%float) series_1900) as [[[]|w1] s1] eqn:E1;
    [|discriminate E1].
  simpl in *.
  destruct (add_year 1901 (year_of 2%float) s1) as [[[]|w2] s2] eqn:E2; simpl in *.
  - exact H3.
  - exact H2.
Qed.

Lemma good_count_run s :
  good_count s = (Return (len (series_of s) - count MISSING (series_of s)), s).
Proof. by py_run. Qed.

Lemma dunder_len_run s : __len__ s = (Return (len (series_of s)), s).
Proof. by py_run. Qed.

(** What a successful, storing call leaves, as the accessors see it. *)
Lemma add_year_append_obs s year data :
  len data = 12 -> first_year s <> 0 -> whole_years s ->
  first_year s + len (series_of s) / 12 - 1 < year ->
  let s' := exec (add_year year data) s in
  eval (add_year year data) s = Return tt
  /\ first_year s' = first_year s
  /\ series_of s'
     = series_of s
       ++ times MISSING ((year - (first_year s + len (series_of s) / 12 - 1) - 1) * 12)
       ++ data.
Proof.
  intros Hlen Hfy Hwy Hlt s'. subst s'. unfold eval, exec.
  rewrite add_year_append by done. simpl. split_and!; try done.
  unfold series_of at 1. simpl. by rewrite contents_store_eq.
Qed.

Lemma add_year_unset_obs s year data :
  len data = 12 -> first_year s = 0 -> series_of s = [] ->
  let s' := exec (add_year year data) s in
  eval (add_year year data) s = Return tt
  /\ first_year s' = year
  /\ series_of s' = data.
Proof.
  intros Hlen Hfy Hnil s'. subst s'. unfold eval, exec.
  rewrite add_year_unset by done. simpl. split_and!; try done.
  unfold series_of. simpl. by rewrite contents_store_eq.
Qed.

(** *** Every call is a by-value call or the aliased one *)

(** A call behaves as if the items of [data] on entry had been passed by
    value, except when [data] is the list [self.series] itself, holding
    one year, and the call skips years: then the padding lengthens
    [data] before it is appended. *)
Lemma add_year_by_value_or_aliased s year (data : sequence) :
  add_year year data s = add_year year (by_value (items s data)) s
  \/ (data = list_at (series s)
      /\ len (series_of s) = 12
      /\ first_year s <> 0
      /\ first_year s + 1 < year).
Proof.
  destruct data as [v|d]; [by left|].
  destruct (decide (d = series s)) as [->|Hd];
    [|left; by apply add_year_separate].
  destruct s as [fy sr my h]. py_run.
  py_cases; bool_to_prop; rewrite ?lookup_total_insert_eq in *;
    try (left; done).
  right. rewrite ?len_app in *. split_and!; try done. zsolve.
Qed.

(** A storing call on an anchored series, however [data] is passed: the
    series gets the padding, the twelve items [data] had on entry and,
    in the aliased case, the padding once more. *)
Lemma add_year_append_gen s year (data : sequence) :
  len (items s data) = 12 -> first_year s <> 0 -> whole_years s ->
  first_year s + len (series_of s) / 12 - 1 < year ->
  exists m,
    0 <= m
    /\ (separate s data -> m = 0)
    /\ eval (add_year year data) s = Return tt
    /\ first_year (exec (add_year year data) s) = first_year s
    /\ series_of (exec (add_year year data) s)
       = series_of s
         ++ times MISSING
              ((year - (first_year s + len (series_of s) / 12 - 1) - 1) * 12)
         ++ items s data ++ times MISSING m.
Proof.
  intros Hl Hfy Hwy Hlt.
  destruct (add_year_by_value_or_aliased s year data)
    as [E|(-> & Hl' & _ & Hy)].
  - exists 0. unfold eval, exec. rewrite E.
    destruct (add_year_append_obs s year (items s data) Hl Hfy Hwy Hlt)
      as (He & Hf & Hs).
    split_and!; try done. unfold exec in Hs. rewrite Hs.
    change (times MISSING 0) with (@nil float). by rewrite app_nil_r.
  - exists ((year - first_year s - 1) * 12).
    unfold eval, exec. rewrite add_year_aliased by (done || lia). simpl.
    split_and!; try done; [lia|].
    unfold series_of at 1. simpl. rewrite contents_store_eq.
    fold (series_of s). rewrite Hl'. change (12 / 12) with 1.
    replace (year - (first_year s + 1 - 1) - 1) with (year - first_year s - 1)
      by lia.
    by rewrite <- !app_assoc.
Qed.

(** A call on a series whose [first_year] is unset, and a call for a
    year that needs no padding, read [data] once the series is as on
    entry. *)
Lemma add_year_no_padding s year (data : sequence) :
  first_year s = 0 \/ year <= first_year s + len (series_of s) / 12 ->
  add_year year data s = add_year year (by_value (items s data)) s.
Proof.
  intros H.
  destruct (add_year_by_value_or_aliased s year data)
    as [E|(_ & Hl & Hfy & Hy)]; [done|].
  rewrite Hl in H. change (12 / 12) with 1 in H. lia.
Qed.

(** The six ways through [add_year], however [data] is passed. *)
Lemma add_year_cases_gen s year (data : sequence) :
  whole_years s ->
  let ly := first_year s + len (series_of s) / 12 - 1 in
  let v := items s data in
  (len v <> 12
   /\ add_year year data s = (AssertionError assert_data_len, s))
  \/ (len v = 12 /\ first_year s = 0 /\ series_of s = []
      /\ add_year year data s
         = (Return tt,
            store (series s) v
              (State year (series s) (dict_missing_year s) (heap s))))
  \/ (len v = 12 /\ first_year s = 0 /\ series_of s <> []
      /\ add_year year data s
         = (AssertionError assert_next_year,
            State year (series s) (dict_missing_year s) (heap s)))
  \/ (len v = 12 /\ first_year s <> 0 /\ year < first_year s
      /\ add_year year data s = (Return tt, s))
  \/ (len v = 12 /\ first_year s <> 0 /\ first_year s <= year <= ly
      /\ add_year year data s = (AssertionError assert_next_year, s))
  \/ (len v = 12 /\ first_year s <> 0 /\ ly < year
      /\ exists m,
           (m = 0 \/ (data = list_at (series s) /\ m = (year - ly - 1) * 12))
           /\ add_year year data s
              = (Return tt,
                 store (series s)
                   (series_of s ++ times MISSING ((year - ly - 1) * 12)
                    ++ v ++ times MISSING m) s)).
Proof.
  intros Hwy ly v.
  destruct (add_year_by_value_or_aliased s year data)
    as [E|(-> & Hl & Hfy & Hy)].
  - subst v ly. rewrite E.
    destruct (add_year_cases s year (items s data) Hwy)
      as [H|[H|[H|[H|[H|(Hl & Hfy & Hlt & H)]]]]]; eauto 10.
    do 5 right. split_and!; try done. exists 0. split; [by left|].
    rewrite H. change (times MISSING 0) with (@nil float).
    by rewrite app_nil_r.
  - do 5 right. subst v ly. simpl. fold (series_of s). rewrite Hl.
    change (12 / 12) with 1. split_and!; try done; [lia|].
    exists ((year - (first_year s + 1 - 1) - 1) * 12). split; [by right|].
    rewrite add_year_aliased by (done || lia). simpl.
    replace (year - (first_year s + 1 - 1) - 1) with (year - first_year s - 1)
      by lia.
    by rewrite <- !app_assoc.
Qed.

Lemma add_year_bad_len_gen s year (data : sequence) :
  len (items s data) <> 12 ->
  add_year year data s = (AssertionError assert_data_len, s).
Proof.
  intros Hl.
  destruct (add_year_by_value_or_aliased s year data) as [E|(-> & Hl' & _)].
  - rewrite E. by apply add_year_bad_len.
  - done.
Qed.

(** A normal return from a by-value call leaves whole years, from any
    state. *)
Lemma add_year_Return_whole_years s s' year (v : list float) :
  add_year year v s = (Return tt, s') ->
  len (series_of s') mod 12 = 0.
Proof.
  intros H. py_unfold. simpl in H.
  py_cases; simplify_eq; store_simpl; bool_to_prop;
    rewrite ?len_app in *; try done; zsolve.
Qed.

(** When a by-value call raises, on an anchored series that holds a
    whole number of years. *)
Lemma add_year_fails_iff_by_value s year (v : list float) :
  whole_years s -> anchored s ->
  let ly := first_year s + len (series_of s) / 12 - 1 in
  let fails_seq := first_year s <> 0 /\ first_year s <= year <= ly in
  eval last_year s = Return ly
  /\ ((exists w, eval (add_year year v) s = AssertionError w)
      <-> (len v <> 12 \/ fails_seq))
  /\ (eval (add_year year v) s = AssertionError assert_data_len
      <-> len v <> 12)
  /\ (eval (add_year year v) s = AssertionError assert_next_year
      <-> (len v = 12 /\ fails_seq))
  /\ (eval (add_year year v) s = Return tt
      <-> ~ (len v <> 12 \/ fails_seq)).
Proof.
  intros Hwy Hanch ly fails_seq.
  split; [unfold eval; by rewrite last_year_run|].
  unfold eval, fails_seq.
  destruct (add_year_cases s year v Hwy)
    as [(Hl & ->)|[(Hl & Hfy & Hs & ->)|[(Hl & Hfy & Hs & ->)|[(Hl & Hfy & Hy & ->)
        |[(Hl & Hfy & Hy & ->)|(Hl & Hfy & Hy & ->)]]]]]; simpl; subst ly.
  3: { destruct Hanch; done. }
  all: split_and!; split; try done; try (intros [w [=]]); try lia;
    try (intros; exfalso; lia); eauto.
Qed.

(** ** Properties of the class *)

(** C1. Whenever [add_year] returns normally, from any state and also
    when the call was ignored because [year < first_year], the series
    holds a whole number of years afterwards:
    [len(series) % 12 == 0]. *)
Theorem add_year_whole_years (s s' : state) (year : Z) (data : sequence) :
  add_year year data s = (Return tt, s') ->
  len (series_of s') mod 12 = 0.
Proof.
  intros H.
  destruct (add_year_by_value_or_aliased s year data)
    as [E|(-> & Hl & Hfy & Hy)].
  - rewrite E in H. by apply (add_year_Return_whole_years s s' year (items s data)).
  - rewrite add_year_aliased in H by (done || lia). injection H as <-.
    unfold series_of at 1. simpl.
    rewrite contents_store_eq, !len_app, len_times, Hl by lia. zsolve.
Qed.

Lemma add_year_whole_years_witness :
  len (series_of (exec (add_year 1903 (year_of 1%float)) series_1900)) mod 12 = 0.
Proof.
  apply (add_year_whole_years series_1900 _ 1903 (year_of 1%float)).
  vm_compute. reflexivity.
Defined.

(** C2. When [has_data_for_year(year)] holds, [get_a_year(year)] returns
    a list holding exactly the twelve values
    [series[(year-first_year)*12 : (year-first_year)*12+12]], it leaves
    the series as it was, and asking again gives the same twelve
    values. *)
Theorem get_a_year_has_data (s : state) (year : Z) :
  eval (has_data_for_year year) s = Return true ->
  let start := (year - first_year s) * 12 in
  exists r s',
    get_a_year year s = (Return r, s')
    /\ contents s' r = slice (series_of s) start (start + 12)
    /\ len (contents s' r) = 12
    /\ (forall i, 0 <= i < 12 ->
          contents s' r !! Z.to_nat i = series_of s !! Z.to_nat (start + i))
    /\ first_year s' = first_year s
    /\ series_of s' = series_of s
    /\ returned_list (get_a_year year) s' = Some (contents s' r).
Proof.
  intros Hhas start. destruct (has_data_inside s year Hhas) as [H0 Hle].
  fold start in H0, Hle.
  assert (fresh (dom (heap s)) <> series s) as Hne.
  { apply fresh_not_live, nonempty_live. fold (contents s (series s)).
    fold (series_of s). intros Hnil. rewrite Hnil in Hle.
    change (len []) with 0 in Hle. lia. }
  unfold eval in Hhas. rewrite has_data_for_year_run in Hhas.
  simpl in Hhas. injection Hhas as Hb.
  eexists _, _. rewrite get_a_year_run, Hb. simpl. split; [reflexivity|].
  rewrite contents_store_eq. fold start. split_and!.
  - done.
  - by apply len_slice_inside.
  - intros i Hi. by apply lookup_slice_inside.
  - done.
  - by apply series_of_store_ne.
  - rewrite returned_list_get_a_year. simpl.
    rewrite series_of_store_ne by done. by rewrite Hb.
Qed.

Lemma get_a_year_has_data_witness :
  exists r s',
    get_a_year 1901 series_with_gap = (Return r, s')
    /\ contents s' r = slice (series_of series_with_gap) 12 (12 + 12)
    /\ len (contents s' r) = 12
    /\ (forall i, 0 <= i < 12 ->
          contents s' r !! Z.to_nat i
          = series_of series_with_gap !! Z.to_nat (12 + i))
    /\ first_year s' = first_year series_with_gap
    /\ series_of s' = series_of series_with_gap
    /\ returned_list (get_a_year 1901) s' = Some (contents s' r).
Proof.
  apply (get_a_year_has_data series_with_gap 1901).
  vm_compute. reflexivity.
Defined.

(** C5, as stated, fails: [Series(1900, series=[1.0]*5)] has
    [first_year] set, and [add_year(1899, data)] with twelve values
    raises at [assert len(self) % 12 == 0], which runs before the test
    [year < self.first_year]. *)
Lemma add_year_before_first_year_counterexample :
  let s := series_from_keyword (times 1%float 5) in
  let data := year_of 2%float in
  first_year s = 1900
  /\ len data = 12
  /\ 1899 < first_year s
  /\ eval (add_year 1899 data) s = AssertionError assert_whole_years.
Proof. vm_compute. done. Qed.

(** C5, amended. With [first_year] set and a whole number of years
    stored, a call [add_year(year, data)] with twelve values and
    [year < first_year] is ignored, however [data] is passed: it raises
    nothing and leaves [first_year], [series], the length, [last_year]
    and [good_count()] as they were. *)
Theorem add_year_before_first_year (s : state) (year : Z) (data : sequence) :
  first_year s <> 0 -> whole_years s -> len (items s data) = 12 ->
  year < first_year s ->
  let s' := exec (add_year year data) s in
  eval (add_year year data) s = Return tt
  /\ s' = s
  /\ first_year s' = first_year s
  /\ series_of s' = series_of s
  /\ eval __len__ s' = eval __len__ s
  /\ eval last_year s' = eval last_year s
  /\ eval good_count s' = eval good_count s.
Proof.
  intros Hfy Hwy Hlen Hlt s'. subst s'. unfold eval, exec.
  pose proof (len_nonneg (series_of s)).
  rewrite add_year_no_padding by (right; zsolve).
  rewrite add_year_ignored by done. by simpl.
Qed.

(** [Series(first_year=1900)] with the year 1900 stored; the call passes
    the list [self.series] itself. *)
Lemma add_year_before_first_year_witness :
  let s := exec (add_year 1900 (year_of 1%float)) series_1900 in
  let data := list_at (series s) in
  let s' := exec (add_year 1899 data) s in
  eval (add_year 1899 data) s = Return tt
  /\ s' = s
  /\ first_year s' = first_year s
  /\ series_of s' = series_of s
  /\ eval __len__ s' = eval __len__ s
  /\ eval last_year s' = eval last_year s
  /\ eval good_count s' = eval good_count s.
Proof.
  apply (add_year_before_first_year
           (exec (add_year 1900 (year_of 1%float)) series_1900) 1899
           (list_at (series (exec (add_year 1900 (year_of 1%float)) series_1900)))).
  - vm_compute. discriminate.
  - vm_compute. reflexivity.
  - vm_compute. reflexivity.
  - vm_compute. reflexivity.
Defined.

(** C8, as stated, fails: on [Series(1900, missing_year=[0.0])] the
    instance attribute shadows the class template, and
    [get_a_year(1850)], a year without data, returns [[0.0]]. *)
Lemma get_a_year_no_data_counterexample :
  let s := series_with_own_template [0%float] in
  eval (has_data_for_year 1850) s = Return false
  /\ returned_list (get_a_year 1850) s = Some [0%float]
  /\ returned_list (get_a_year 1850) s <> Some (times MISSING 12).
Proof. vm_compute. done. Qed.

(** C8, amended. On a series whose attribute [missing_year] refers to a
    list of twelve [MISSING] (the class template, unless it was shadowed
    or changed) and whose [series] is a live list other than that one:
    when [has_data_for_year(year)] does not hold, [get_a_year(year)]
    returns a list of exactly twelve [MISSING], and that list is a new
    object: whatever the caller then does to it, every later
    [get_a_year] call returns what it would have returned anyway, and
    the same year again gives twelve [MISSING]. *)
Theorem get_a_year_no_data (s : state) (year : Z) :
  wf s ->
  eval (has_data_for_year year) s = Return false ->
  exists r s',
    get_a_year year s = (Return r, s')
    /\ contents s' r = times MISSING 12
    /\ heap s !! r = None
    /\ (forall v year',
          returned_list (get_a_year year') (store r v s')
          = returned_list (get_a_year year') s')
    /\ (forall v,
          returned_list (get_a_year year) (store r v s')
          = Some (times MISSING 12)).
Proof.
  intros Hwf Hno. destruct (fresh_not_internal s Hwf) as [Hr1 Hr2].
  destruct Hwf as (Ht & Hne & Hlive).
  unfold eval in Hno. rewrite has_data_for_year_run in Hno.
  simpl in Hno. injection Hno as Hb.
  assert (contents s (self_missing_year s) = times MISSING 12) as Htc.
  { unfold contents. by rewrite lookup_total_alt, Ht. }
  eexists _, _. rewrite get_a_year_run, Hb. simpl. split; [reflexivity|].
  rewrite contents_store_eq.
  set (r := fresh (dom (heap s))) in *.
  assert (forall v year',
            returned_list (get_a_year year') (store r v s)
            = returned_list (get_a_year year') s) as Hsame.
  { intros v year'. rewrite !returned_list_get_a_year. simpl.
    by rewrite series_of_store_ne, contents_store_ne. }
  split_and!.
  - done.
  - apply not_elem_of_dom. apply is_fresh.
  - intros v year'. by rewrite store_store, !Hsame.
  - intros v. rewrite store_store, Hsame, returned_list_get_a_year, Hb.
    by rewrite Htc.
Qed.

Lemma get_a_year_no_data_witness :
  exists r s',
    get_a_year 1850 series_with_gap = (Return r, s')
    /\ contents s' r = times MISSING 12
    /\ heap series_with_gap !! r = None
    /\ (forall v year',
          returned_list (get_a_year year') (store r v s')
          = returned_list (get_a_year year') s')
    /\ (forall v,
          returned_list (get_a_year 1850) (store r v s')
          = Some (times MISSING 12)).
Proof.
  apply (get_a_year_no_data series_with_gap 1850).
  - unfold wf. split_and!.
    + vm_compute. reflexivity.
    + vm_compute. discriminate.
    + vm_compute. eexists. reflexivity.
  - vm_compute. reflexivity.
Defined.

(** C9. [good_count()] is the number of items of [series] that are not
    equal to [MISSING], that is, the length of [series] minus the number
    of items equal to [MISSING]; the call changes nothing. *)
Theorem good_count_counts_valid (s : state) :
  good_count s
  = (Return (Z.of_nat (length (List.filter valid (series_of s)))), s)
  /\ Z.of_nat (length (List.filter valid (series_of s)))
     = len (series_of s) - count MISSING (series_of s).
Proof.
  pose proof (count_MISSING_valid (series_of s)) as H.
  split; [|lia]. rewrite good_count_run. do 2 f_equal. lia.
Qed.

(** C10, as stated, fails: [Series(1900, series=[1.0]*12)] is freshly
    constructed with a set [first_year], yet its length is 12, it has
    data for 1900 and [good_count()] is 12. *)
Lemma new_series_is_empty_counterexample :
  let s := series_from_keyword (year_of 1%float) in
  first_year s = 1900
  /\ eval __len__ s = Return 12
  /\ eval last_year s = Return 1900
  /\ eval good_count s = Return 12
  /\ eval (has_data_for_year 1900) s = Return true
  /\ returned_list (get_a_year 1900) s = Some (year_of 1%float).
Proof. vm_compute. done. Qed.

(** C10, amended. A series just constructed with a set [first_year],
    without the keyword [series=], and whose [missing_year] attribute
    (the class template, or a list given as [missing_year=]) holds
    twelve [MISSING]: its length is 0, [last_year] is [first_year - 1],
    [good_count()] is 0, no year has data, and [get_a_year] returns
    twelve [MISSING] for every year. *)
Theorem new_series_is_empty
    (fy : Z) (k : keywords) (h : gmap loc (list float)) (year : Z) :
  fy <> 0 ->
  kw_series k = None ->
  h !! default missing_year (kw_missing_year k) = Some (times MISSING 12) ->
  let s := __init__ fy k h in
  eval __len__ s = Return 0
  /\ eval last_year s = Return (fy - 1)
  /\ eval good_count s = Return 0
  /\ eval (has_data_for_year year) s = Return false
  /\ returned_list (get_a_year year) s = Some (times MISSING 12).
Proof.
  intros _ Hk Ht s. subst s. pose proof (series_of_init fy k h Hk) as Hnil.
  destruct (init_wf fy k h Hk Ht) as (Ht' & _ & _).
  set (s := __init__ fy k h) in *.
  assert (first_year s = fy) as Hfy by done.
  assert ((first_year s <=? year)
          && (year <=? first_year s + len (series_of s) / 12 - 1) = false) as Hb.
  { rewrite Hnil, Hfy. change (len [] / 12) with 0.
    apply andb_false_iff. destruct (fy <=? year) eqn:E; [right|by left].
    bool_to_prop. apply Z.leb_gt. lia. }
  clearbody s. split_and!.
  - unfold eval, __len__, bind, get_series, read, ret. simpl.
    fold (series_of s). by rewrite Hnil.
  - unfold eval. rewrite last_year_run, Hnil, Hfy.
    change (len [] / 12) with 0. simpl. f_equal. lia.
  - unfold eval. rewrite good_count_run, Hnil. done.
  - unfold eval. rewrite has_data_for_year_run. simpl. by rewrite Hb.
  - rewrite returned_list_get_a_year, Hb. unfold contents.
    by rewrite lookup_total_alt, Ht'.
Qed.

Lemma new_series_is_empty_witness :
  eval __len__ series_1900 = Return 0
  /\ eval last_year series_1900 = Return (1900 - 1)
  /\ eval good_count series_1900 = Return 0
  /\ eval (has_data_for_year 1900) series_1900 = Return false
  /\ returned_list (get_a_year 1900) series_1900 = Some (times MISSING 12).
Proof.
  apply (new_series_is_empty 1900 no_keywords module_heap 1900).
  - discriminate.
  - reflexivity.
  - vm_compute. reflexivity.
Defined.

(** C3, as stated, fails: after [Series(0)] and [add_year(0, ...)] the
    attribute [first_year] is still falsy and twelve months are stored;
    [add_year(1, ...)] with twelve values then raises, although the data
    has length 12 and [first_year] is not set. *)
Lemma add_year_fails_iff_counterexample :
  let s := series_year_zero in
  let data := year_of 2%float in
  (exists w, eval (add_year 1 data) s = AssertionError w)
  /\ ~ (len data <> 12
        \/ (first_year s <> 0
            /\ first_year s <= 1 <= first_year s + len (series_of s) / 12 - 1)).
Proof.
  split.
  - exists assert_next_year. vm_compute. reflexivity.
  - intros [H|[H _]]; apply H; vm_compute; reflexivity.
Qed.

(** C3, amended. For a series that holds a whole number of years and
    whose [first_year] is set or whose list is still empty,
    [add_year(year, data)] raises exactly when [len(data) != 12] (the
    first assertion) or [first_year] is set and
    [first_year <= year <= last_year] (the last assertion); in every
    other case it returns normally. *)
Theorem add_year_fails_iff (s : state) (year : Z) (data : sequence) :
  whole_years s -> anchored s ->
  let ly := first_year s + len (series_of s) / 12 - 1 in
  let fails_seq := first_year s <> 0 /\ first_year s <= year <= ly in
  eval last_year s = Return ly
  /\ ((exists w, eval (add_year year data) s = AssertionError w)
      <-> (len (items s data) <> 12 \/ fails_seq))
  /\ (eval (add_year year data) s = AssertionError assert_data_len
      <-> len (items s data) <> 12)
  /\ (eval (add_year year data) s = AssertionError assert_next_year
      <-> (len (items s data) = 12 /\ fails_seq))
  /\ (eval (add_year year data) s = Return tt
      <-> ~ (len (items s data) <> 12 \/ fails_seq)).
Proof.
  intros Hwy Hanch ly fails_seq.
  rewrite (add_year_eval_by_value s year data).
  by apply (add_year_fails_iff_by_value s year (items s data)).
Qed.

Lemma add_year_fails_iff_witness :
  let s := series_with_gap in
  let data := year_of 4%float in
  let ly := first_year s + len (series_of s) / 12 - 1 in
  let fails_seq := first_year s <> 0 /\ first_year s <= 1902 <= ly in
  eval last_year s = Return ly
  /\ ((exists w, eval (add_year 1902 data) s = AssertionError w)
      <-> (len data <> 12 \/ fails_seq))
  /\ (eval (add_year 1902 data) s = AssertionError assert_data_len
      <-> len data <> 12)
  /\ (eval (add_year 1902 data) s = AssertionError assert_next_year
      <-> (len data = 12 /\ fails_seq))
  /\ (eval (add_year 1902 data) s = Return tt
      <-> ~ (len data <> 12 \/ fails_seq)).
Proof.
  apply (add_year_fails_iff series_with_gap 1902 (year_of 4%float)).
  - vm_compute. reflexivity.
  - left. vm_compute. discriminate.
Defined.

(** C4, as stated, fails: in the state after [Series(0)] and
    [add_year(0, ...)], the call [add_year(5, ...)] raises and has
    already set [first_year] to 5. *)
Lemma add_year_atomic_counterexample :
  let s := series_year_zero in
  let data := year_of 2%float in
  eval (add_year 5 data) s = AssertionError assert_next_year
  /\ first_year s = 0
  /\ first_year (exec (add_year 5 data) s) = 5.
Proof. vm_compute. done. Qed.

(** C4, amended. For a series that holds a whole number of years and
    whose [first_year] is set or whose list is still empty, a call to
    [add_year] that raises leaves the whole state as it was, and a call
    that returns either changed nothing or appended, after a whole
    number of years of [MISSING], the twelve items [data] had on entry
    (followed by the same padding once more when [data] is the list
    [self.series] itself and years were skipped), touching no other
    list.  A call with [len(data) != 12] changes nothing in any
    state. *)
Theorem add_year_atomic (s : state) (year : Z) (data : sequence) :
  (whole_years s /\ anchored s) \/ len (items s data) <> 12 ->
  let s' := exec (add_year year data) s in
  match eval (add_year year data) s with
  | AssertionError _ => s' = s
  | Return _ =>
      s' = s
      \/ exists gap m,
           0 <= gap
           /\ (m = 0 \/ (data = list_at (series s) /\ m = gap * 12))
           /\ series_of s'
              = series_of s ++ times MISSING (gap * 12)
                ++ items s data ++ times MISSING m
           /\ series s' = series s
           /\ forall l, l <> series s -> contents s' l = contents s l
  end.
Proof.
  intros [[Hwy Hanch]|Hlen] s'; subst s'; unfold eval, exec;
    [|by rewrite add_year_bad_len_gen].
  destruct (add_year_cases_gen s year data Hwy)
    as [(Hl & ->)|[(Hl & Hfy & Hs & ->)|[(Hl & Hfy & Hs & ->)|[(Hl & Hfy & Hy & ->)
        |[(Hl & Hfy & Hy & ->)|(Hl & Hfy & Hy & m & Hm & ->)]]]]]; simpl; try done.
  - right. exists 0, 0. split_and!; try done; [by left| |].
    + unfold series_of at 1. simpl. rewrite contents_store_eq, Hs.
      change (times MISSING _) with (@nil float). by rewrite app_nil_r.
    + intros l Hne. by rewrite contents_store_ne.
  - destruct Hanch; done.
  - by left.
  - right. eexists _, m. split_and!; [|exact Hm| |done|].
    2: { unfold series_of at 1. simpl. rewrite contents_store_eq. reflexivity. }
    + lia.
    + intros l Hne. by rewrite contents_store_ne.
Qed.

(** One year stored, then [s.add_year(1902, s.series)]. *)
Lemma add_year_atomic_witness :
  let s := exec (add_year 1900 (year_of 1%float)) series_1900 in
  let data := list_at (series s) in
  let s' := exec (add_year 1902 data) s in
  match eval (add_year 1902 data) s with
  | AssertionError _ => s' = s
  | Return _ =>
      s' = s
      \/ exists gap m,
           0 <= gap
           /\ (m = 0 \/ (data = list_at (series s) /\ m = gap * 12))
           /\ series_of s'
              = series_of s ++ times MISSING (gap * 12)
                ++ items s data ++ times MISSING m
           /\ series s' = series s
           /\ forall l, l <> series s -> contents s' l = contents s l
  end.
Proof.
  apply (add_year_atomic
           (exec (add_year 1900 (year_of 1%float)) series_1900) 1902
           (list_at (series (exec (add_year 1900 (year_of 1%float)) series_1900)))).
  left. split.
  - vm_compute. reflexivity.
  - left. vm_compute. discriminate.
Defined.




(** C7, as stated, fails: three years of valid values are stored, so
    [good_count()] is 36, not 24. *)
Lemma three_years_with_gap_counterexample :
  let s := series_with_gap in
  Forall (fun v => valid v = true)
    (year_of 1%float ++ year_of 2%float ++ year_of 3%float)
  /\ eval last_year s = Return 1903
  /\ eval __len__ s = Return 48
  /\ eval good_count s = Return 36
  /\ eval good_count s <> Return 24.
Proof.
  split; [|by vm_compute].
  vm_compute. repeat constructor.
Qed.

(** C7, amended. On a series constructed with [first_year] 1900 or
    unset, [add_year] for 1900, 1901 and 1903 with twelve valid values
    each succeeds and yields [last_year == 1903], [len(series) == 48],
    [get_a_year(1902)] returning twelve [MISSING], and
    [good_count() == 36]. *)
Theorem three_years_with_gap
    (fy : Z) (h : gmap loc (list float)) (d1 d2 d3 : list float) :
  fy = 1900 \/ fy = 0 ->
  len d1 = 12 -> len d2 = 12 -> len d3 = 12 ->
  Forall (fun v => valid v = true) (d1 ++ d2 ++ d3) ->
  let s0 := __init__ fy no_keywords h in
  let s1 := exec (add_year 1900 d1) s0 in
  let s2 := exec (add_year 1901 d2) s1 in
  let s3 := exec (add_year 1903 d3) s2 in
  eval (add_year 1900 d1) s0 = Return tt
  /\ eval (add_year 1901 d2) s1 = Return tt
  /\ eval (add_year 1903 d3) s2 = Return tt
  /\ eval last_year s3 = Return 1903
  /\ eval __len__ s3 = Return 48
  /\ returned_list (get_a_year 1902) s3 = Some (times MISSING 12)
  /\ eval good_count s3 = Return 36.
Proof.
  intros Hfy Hl1 Hl2 Hl3 Hvalid s0 s1 s2 s3. subst s3 s2 s1 s0.
  apply Forall_app in Hvalid as [Hv1 Hvalid].
  apply Forall_app in Hvalid as [Hv2 Hv3].
  pose proof (series_of_init fy no_keywords h eq_refl) as Hs0.
  assert (first_year (__init__ fy no_keywords h) = fy) as Hf0 by done.
  set (s0 := __init__ fy no_keywords h) in *. clearbody s0.
  (* 1900 *)
  assert (eval (add_year 1900 d1) s0 = Return tt
          /\ first_year (exec (add_year 1900 d1) s0) = 1900
          /\ series_of (exec (add_year 1900 d1) s0) = d1) as (He1 & Hf1 & Hs1).
  { destruct Hfy as [Hfy|Hfy].
    - destruct (add_year_append_obs s0 1900 d1) as (He & Hf & Hs); try done.
      { by rewrite Hf0, Hfy. }
      { unfold whole_years. by rewrite Hs0. }
      { rewrite Hs0, Hf0, Hfy. by vm_compute. }
      split_and!; [done|by rewrite Hf, Hf0|].
      rewrite Hs, Hs0, Hf0, Hfy. done.
    - apply add_year_unset_obs; [done|by rewrite Hf0|done]. }
  set (s1 := exec (add_year 1900 d1) s0) in *. clearbody s1.
  (* 1901 *)
  destruct (add_year_append_obs s1 1901 d2) as (He2 & Hf2 & Hs2); try done.
  { by rewrite Hf1. }
  { unfold whole_years. by rewrite Hs1, Hl1. }
  { rewrite Hs1, Hl1, Hf1. by vm_compute. }
  rewrite Hf1 in Hf2. rewrite Hs1, Hl1, Hf1 in Hs2.
  change (times MISSING _) with (@nil float) in Hs2. simpl in Hs2.
  set (s2 := exec (add_year 1901 d2) s1) in *. clearbody s2.
  (* 1903 *)
  assert (len (d1 ++ d2) = 24) as Hl12 by (rewrite len_app; lia).
  destruct (add_year_append_obs s2 1903 d3) as (He3 & Hf3 & Hs3); try done.
  { by rewrite Hf2. }
  { unfold whole_years. by rewrite Hs2, Hl12. }
  { rewrite Hs2, Hl12, Hf2. by vm_compute. }
  rewrite Hf2 in Hf3. rewrite Hs2, Hl12, Hf2 in Hs3.
  change (times MISSING _) with (times MISSING 12) in Hs3.
  set (s3 := exec (add_year 1903 d3) s2) in *. clearbody s3.
  assert (len (series_of s3) = 48) as Hl48.
  { rewrite Hs3, !len_app, len_times by lia. lia. }
  split_and!; try done.
  - unfold eval. rewrite last_year_run, Hl48, Hf3. done.
  - unfold eval. by rewrite dunder_len_run, Hl48.
  - rewrite returned_list_get_a_year, Hl48, Hf3. simpl. f_equal.
    rewrite (slice_inside _ 24) by lia. rewrite Hs3.
    rewrite drop_app_length' by (unfold len in Hl12; lia).
    by rewrite take_app_length' by (unfold times; by rewrite length_replicate).
  - unfold eval. rewrite good_count_run, Hl48, Hs3.
    rewrite !count_app, count_MISSING_times by lia.
    rewrite !count_MISSING_all_valid by done. done.
Qed.

Lemma three_years_with_gap_witness :
  let d1 := year_of 1%float in
  let d2 := year_of 2%float in
  let d3 := year_of 3%float in
  let s0 := __init__ 1900 no_keywords module_heap in
  let s1 := exec (add_year 1900 d1) s0 in
  let s2 := exec (add_year 1901 d2) s1 in
  let s3 := exec (add_year 1903 d3) s2 in
  eval (add_year 1900 d1) s0 = Return tt
  /\ eval (add_year 1901 d2) s1 = Return tt
  /\ eval (add_year 1903 d3) s2 = Return tt
  /\ eval last_year s3 = Return 1903
  /\ eval __len__ s3 = Return 48
  /\ returned_list (get_a_year 1902) s3 = Some (times MISSING 12)
  /\ eval good_count s3 = Return 36.
Proof.
  apply (three_years_with_gap 1900 module_heap
           (year_of 1%float) (year_of 2%float) (year_of 3%float)).
  - left. reflexivity.
  - vm_compute. reflexivity.
  - vm_compute. reflexivity.
  - vm_compute. reflexivity.
  - vm_compute. repeat constructor.
Defined.

(** ** Further properties of the class *)

(** *** Slices of appended lists *)

Lemma slice_inside_app_l (l k : list float) (start : Z) :
  0 <= start -> start + 12 <= len l ->
  slice (l ++ k) start (start + 12) = slice l start (start + 12).
Proof.
  intros H0 Hle. pose proof (len_nonneg k).
  rewrite !slice_inside by (rewrite ?len_app; lia).
  unfold len in *. rewrite drop_app_le by lia. apply take_app_le.
  rewrite length_drop. lia.
Qed.

Lemma slice_inside_app_r (l k : list float) (start : Z) :
  len l <= start -> start + 12 <= len l + len k ->
  slice (l ++ k) start (start + 12)
  = slice k (start - len l) (start - len l + 12).
Proof.
  intros H0 Hle. pose proof (len_nonneg l).
  rewrite !slice_inside by (rewrite ?len_app; lia).
  unfold len in *. rewrite drop_app_ge by lia. do 2 f_equal. lia.
Qed.

Lemma slice_times x (n start : Z) :
  0 <= start -> start + 12 <= n ->
  slice (times x n) start (start + 12) = times x 12.
Proof.
  intros H0 Hle. rewrite slice_inside by (rewrite ?len_times; lia).
  unfold times. rewrite drop_replicate, take_replicate. f_equal. lia.
Qed.

Lemma slice_whole_year (d : list float) : len d = 12 -> slice d 0 (0 + 12) = d.
Proof.
  intros Hl. rewrite slice_inside by lia. simpl. apply take_ge.
  unfold len in Hl. lia.
Qed.

(** *** One call after another *)

Lemma bind_Return {A B} (m : M A) (f : A -> M B) s a s' :
  m s = (Return a, s') -> bind m f s = f a s'.
Proof. intros H. unfold bind. by rewrite H. Qed.

Lemma bind_AssertionError {A B} (m : M A) (f : A -> M B) s w s' :
  m s = (AssertionError w, s') -> bind m f s = (AssertionError w, s').
Proof. intros H. unfold bind. by rewrite H. Qed.

Ltac last_year_subst H :=
  unfold eval in H; rewrite last_year_run in H; simpl in H; injection H as <-.

(** Reading back the year a storing call has just appended. *)
Lemma add_year_append_read_back s year data :
  len data = 12 -> first_year s <> 0 -> whole_years s ->
  first_year s + len (series_of s) / 12 - 1 < year ->
  returned_list (get_a_year year) (exec (add_year year data) s) = Some data.
Proof.
  intros Hl Hfy Hwy Hy. pose proof (len_nonneg (series_of s)) as Hnn.
  destruct (add_year_append_obs s year data Hl Hfy Hwy Hy) as (_ & Hf' & Hs').
  unfold whole_years in Hwy.
  set (pad := times MISSING _) in Hs'.
  assert (len pad = (year - (first_year s + len (series_of s) / 12 - 1) - 1) * 12)
    as Hpad by (apply len_times; lia).
  assert (len (series_of s ++ pad) = (year - first_year s) * 12) as Hstart
    by (rewrite len_app, Hpad; zsolve).
  rewrite returned_list_get_a_year, Hf', Hs'.
  replace ((first_year s <=? year) && _) with true.
  2: { symmetry; apply andb_true_intro; split; apply Z.leb_le;
       rewrite ?app_assoc, ?len_app in *; zsolve. }
  f_equal. rewrite app_assoc, slice_inside_app_r by lia.
  rewrite Hstart. replace (_ - _) with 0 by lia. by apply slice_whole_year.
Qed.

(** The shape of the series after a storing call. *)
Lemma add_year_append_shape s year data :
  len data = 12 -> first_year s <> 0 -> whole_years s ->
  first_year s + len (series_of s) / 12 - 1 < year ->
  let s' := exec (add_year year data) s in
  whole_years s'
  /\ len (series_of s') = 12 * (year - first_year s + 1)
  /\ first_year s' + len (series_of s') / 12 - 1 = year.
Proof.
  intros Hl Hfy Hwy Hlt s'.
  destruct (add_year_append_obs s year data Hl Hfy Hwy Hlt) as (He & Hf & Hs).
  fold s' in Hf, Hs. clearbody s'. unfold whole_years in *.
  pose proof (len_nonneg (series_of s)).
  assert (len (series_of s') = 12 * (year - first_year s + 1)) as Hlen.
  { rewrite Hs, !len_app, len_times, Hl by zsolve. zsolve. }
  rewrite Hlen, Hf. split_and!; [zsolve|done|zsolve].
Qed.

(** A year that has data keeps it through any call. *)
Lemma add_year_keeps s year data y :
  first_year s <> 0 ->
  eval (has_data_for_year y) s = Return true ->
  eval (has_data_for_year y) (exec (add_year year data) s) = Return true
  /\ returned_list (get_a_year y) (exec (add_year year data) s)
     = returned_list (get_a_year y) s.
Proof.
  intros Hfy Hhas. destruct (has_data_inside s y Hhas) as [H0 Hle].
  destruct (add_year_effect s year data) as (k & Hs & _ & _ & _ & Hf & _).
  specialize (Hf Hfy). set (s' := exec (add_year year data) s) in *.
  clearbody s'.
  unfold eval in Hhas. rewrite has_data_for_year_run in Hhas. simpl in Hhas.
  injection Hhas as Hb. apply andb_prop in Hb as [Hb1 Hb2].
  pose proof (len_nonneg k) as Hk.
  assert ((first_year s' <=? y)
          && (y <=? first_year s' + len (series_of s') / 12 - 1) = true) as Hb'.
  { apply andb_true_intro. rewrite Hf, Hs, len_app. bool_to_prop.
    split; apply Z.leb_le; [done|]. zsolve. }
  split.
  - unfold eval. rewrite has_data_for_year_run. simpl. by rewrite Hb'.
  - rewrite !returned_list_get_a_year, Hb', Hb1, Hb2, Hf, Hs. simpl.
    by rewrite slice_inside_app_l.
Qed.

(** X1. Whatever the arguments and whatever the outcome, [add_year] only
    appends to the list [self.series]: the months stored before the call
    are a prefix of the months stored after it, what is appended is a
    whole number of years, the attribute still refers to the same list
    object and no other list object is touched. *)
Theorem add_year_only_appends (s : state) (year : Z) (data : sequence) :
  let s' := exec (add_year year data) s in
  exists k,
    series_of s' = series_of s ++ k
    /\ len k mod 12 = 0
    /\ series s' = series s
    /\ forall l, l <> series s -> contents s' l = contents s l.
Proof.
  intros s'. subst s'.
  destruct (add_year_effect s year data) as (k & H1 & H2 & H3 & H4 & _).
  exists k. split_and!; try done. intros l Hl. by apply contents_lookup, H4.
Qed.

(** X2. On a series with [first_year] set that holds a whole number of
    years, [add_year(year, data)] with any [year > last_year] and a
    sequence of twelve values that is not the list [self.series] itself
    returns normally, also when years are skipped; afterwards
    [last_year == year], [first_year] is unchanged, the length is
    [12 * (year - first_year + 1)] and exactly the years
    [first_year .. year] have data. *)
Theorem add_year_advances
    (s : state) (year : Z) (data : sequence) (ly : Z) :
  whole_years s -> first_year s <> 0 ->
  separate s data -> len (items s data) = 12 ->
  eval last_year s = Return ly -> ly < year ->
  let s' := exec (add_year year data) s in
  eval (add_year year data) s = Return tt
  /\ first_year s' = first_year s
  /\ eval last_year s' = Return year
  /\ eval __len__ s' = Return (12 * (year - first_year s + 1))
  /\ forall y, eval (has_data_for_year y) s'
               = Return ((first_year s <=? y) && (y <=? year)).
Proof.
  intros Hwy Hfy Hsep Hl Hly Hlt s'. last_year_subst Hly.
  subst s'. unfold eval at 1, exec. rewrite (add_year_separate s year data Hsep).
  fold (exec (add_year year (items s data)) s).
  fold (eval (add_year year (items s data)) s).
  set (v := items s data) in *.
  destruct (add_year_append_obs s year v Hl Hfy Hwy Hlt) as (He & Hf & _).
  destruct (add_year_append_shape s year v Hl Hfy Hwy Hlt) as (_ & Hlen & Hly').
  set (s' := exec (add_year year v) s) in *. clearbody s'.
  split_and!; try done; unfold eval.
  - rewrite last_year_run. simpl. by rewrite Hly'.
  - rewrite dunder_len_run. simpl. by rewrite Hlen.
  - intros y. rewrite has_data_for_year_run. simpl. by rewrite Hly', Hf.
Qed.

(** One year stored; the call passes a list of the store other than
    [self.series]: the class template. *)
Lemma add_year_advances_witness :
  let s := exec (add_year 1900 (year_of 1%float)) series_1900 in
  let s' := exec (add_year 1902 (list_at missing_year)) s in
  eval (add_year 1902 (list_at missing_year)) s = Return tt
  /\ first_year s' = first_year s
  /\ eval last_year s' = Return 1902
  /\ eval __len__ s' = Return (12 * (1902 - first_year s + 1))
  /\ forall y, eval (has_data_for_year y) s'
               = Return ((first_year s <=? y) && (y <=? 1902)).
Proof.
  apply (add_year_advances
           (exec (add_year 1900 (year_of 1%float)) series_1900)
           1902 (list_at missing_year) 1900).
  - vm_compute. reflexivity.
  - vm_compute. discriminate.
  - vm_compute. discriminate.
  - vm_compute. reflexivity.
  - vm_compute. reflexivity.
  - lia.
Defined.

(** Reading back the year a storing call has just appended, however
    [data] was passed. *)
Lemma add_year_append_read_back_gen s year (data : sequence) :
  len (items s data) = 12 -> first_year s <> 0 -> whole_years s ->
  first_year s + len (series_of s) / 12 - 1 < year ->
  returned_list (get_a_year year) (exec (add_year year data) s)
  = Some (items s data).
Proof.
  intros Hl Hfy Hwy Hy. pose proof (len_nonneg (series_of s)) as Hnn.
  destruct (add_year_append_gen s year data Hl Hfy Hwy Hy)
    as (m & Hm & _ & _ & Hf' & Hs').
  unfold whole_years in Hwy.
  set (pad := times MISSING ((year - _ - 1) * 12)) in Hs'.
  assert (len pad = (year - (first_year s + len (series_of s) / 12 - 1) - 1) * 12)
    as Hpad by (apply len_times; lia).
  assert (len (series_of s ++ pad) = (year - first_year s) * 12) as Hstart
    by (rewrite len_app, Hpad; zsolve).
  rewrite returned_list_get_a_year, Hf', Hs'.
  replace ((first_year s <=? year) && _) with true.
  2: { symmetry; apply andb_true_intro; split; apply Z.leb_le;
       rewrite ?len_app, ?len_times in * by done; zsolve. }
  f_equal. rewrite app_assoc, slice_inside_app_r
    by (rewrite ?len_app, ?len_times in * by done; lia).
  rewrite Hstart. replace (_ - _) with 0 by lia.
  rewrite slice_inside_app_l by lia. by apply slice_whole_year.
Qed.

(** X3. Round trip.  On a series that holds a whole number of years and
    whose [first_year] is set or whose list is still empty, when
    [add_year(year, data)] returns normally and was not ignored,
    [get_a_year(year)] then returns exactly the items [data] had when it
    was passed, also when [data] is the list [self.series] itself. *)
Theorem add_year_get_a_year (s : state) (year : Z) (data : sequence) :
  whole_years s -> anchored s ->
  eval (add_year year data) s = Return tt ->
  first_year s = 0 \/ first_year s <= year ->
  returned_list (get_a_year year) (exec (add_year year data) s)
  = Some (items s data).
Proof.
  intros Hwy Hanch He Hstored. unfold eval in He.
  pose proof (len_nonneg (series_of s)) as Hnn.
  destruct (add_year_cases_gen s year data Hwy)
    as [(Hl & E)|[(Hl & Hfy & Hs & E)|[(Hl & Hfy & Hs & E)|[(Hl & Hfy & Hy & E)
        |[(Hl & Hfy & Hy & E)|(Hl & Hfy & Hy & _)]]]]];
    try (rewrite E in He; simpl in He; try discriminate He).
  - unfold exec. rewrite E. simpl.
    set (s' := store _ _ _).
    assert (first_year s' = year) as Hf' by done.
    assert (series_of s' = items s data) as Hs'
      by (unfold s', series_of, contents, store; simpl;
          by rewrite lookup_total_insert_eq).
    rewrite returned_list_get_a_year, Hf', Hs', Hl.
    replace ((year <=? year) && (year <=? year + 12 / 12 - 1)) with true
      by (symmetry; apply andb_true_intro; split; apply Z.leb_le; zsolve).
    replace ((year - year) * 12) with 0 by lia. by rewrite slice_whole_year.
  - destruct Hstored; lia.
  - by apply add_year_append_read_back_gen.
Qed.

Lemma add_year_get_a_year_witness :
  returned_list (get_a_year 1903)
    (exec (add_year 1903 (year_of 2%float)) series_1900)
  = Some (year_of 2%float).
Proof.
  apply (add_year_get_a_year series_1900 1903 (year_of 2%float)).
  - vm_compute. reflexivity.
  - left. vm_compute. discriminate.
  - vm_compute. reflexivity.
  - right. vm_compute. discriminate.
Defined.

(** X4. Gap filling.  After such a call that skips years, however
    [data] was passed, every skipped year [last_year < y < year] has
    data, and [get_a_year(y)] returns twelve [MISSING] that come from
    the stored padding. *)
Theorem add_year_pads_skipped_years
    (s : state) (year : Z) (data : sequence) (ly y : Z) :
  whole_years s -> first_year s <> 0 -> len (items s data) = 12 ->
  eval last_year s = Return ly -> ly < y < year ->
  let s' := exec (add_year year data) s in
  eval (has_data_for_year y) s' = Return true
  /\ returned_list (get_a_year y) s' = Some (times MISSING 12).
Proof.
  intros Hwy Hfy Hl Hly Hy s'. last_year_subst Hly.
  destruct (add_year_append_gen s year data Hl Hfy Hwy)
    as (m & Hm & _ & _ & Hf & Hs); [lia|].
  fold s' in Hf, Hs. clearbody s'. unfold whole_years in Hwy.
  pose proof (len_nonneg (series_of s)) as Hnn.
  set (gap12 := (year - (first_year s + len (series_of s) / 12 - 1) - 1) * 12) in *.
  assert (0 <= gap12) as Hgap by (subst gap12; lia).
  assert ((first_year s' <=? y)
          && (y <=? first_year s' + len (series_of s') / 12 - 1) = true) as Hb.
  { apply andb_true_intro. rewrite Hf, Hs, !len_app, !len_times, Hl by done.
    subst gap12. split; apply Z.leb_le; zsolve. }
  split.
  - unfold eval. rewrite has_data_for_year_run. simpl. by rewrite Hb.
  - rewrite returned_list_get_a_year, Hb, Hf, Hs. f_equal.
    rewrite slice_inside_app_r
      by (rewrite ?len_app, ?len_times, ?Hl by done; subst gap12; zsolve).
    rewrite slice_inside_app_l
      by (rewrite ?len_times by done; subst gap12; zsolve).
    apply slice_times; subst gap12; zsolve.
Qed.

Lemma add_year_pads_skipped_years_witness :
  let s' := exec (add_year 1903 (year_of 2%float)) series_1900 in
  eval (has_data_for_year 1901) s' = Return true
  /\ returned_list (get_a_year 1901) s' = Some (times MISSING 12).
Proof.
  apply (add_year_pads_skipped_years series_1900 1903 (year_of 2%float) 1899 1901).
  - vm_compute. reflexivity.
  - vm_compute. discriminate.
  - vm_compute. reflexivity.
  - vm_compute. reflexivity.
  - lia.
Defined.

(** X5. On a series with [first_year] set, no call to [add_year],
    whatever its arguments and outcome, changes a year that already has
    data: the year still has data and [get_a_year] returns the same
    twelve values. *)
Theorem add_year_keeps_stored_years
    (s : state) (year : Z) (data : sequence) (y : Z) :
  first_year s <> 0 ->
  eval (has_data_for_year y) s = Return true ->
  let s' := exec (add_year year data) s in
  eval (has_data_for_year y) s' = Return true
  /\ returned_list (get_a_year y) s' = returned_list (get_a_year y) s.
Proof.
  intros Hfy Hhas s'. subst s'. by apply add_year_keeps.
Qed.

Lemma add_year_keeps_stored_years_witness :
  let s' := exec (add_year 1910 (year_of 4%float)) series_with_gap in
  eval (has_data_for_year 1901) s' = Return true
  /\ returned_list (get_a_year 1901) s'
     = returned_list (get_a_year 1901) series_with_gap.
Proof.
  apply (add_year_keeps_stored_years series_with_gap 1910 (year_of 4%float) 1901).
  - vm_compute. discriminate.
  - vm_compute. reflexivity.
Defined.

(** X6. On a series with [first_year] set that holds a whole number of
    years, a call [add_year(year, data)] with twelve values and
    [year > last_year] raises [good_count()] by the number of valid
    values [data] had when it was passed: no padding adds anything. *)
Theorem add_year_good_count
    (s : state) (year : Z) (data : sequence) (ly g : Z) :
  whole_years s -> first_year s <> 0 -> len (items s data) = 12 ->
  eval last_year s = Return ly -> ly < year ->
  eval good_count s = Return g ->
  eval good_count (exec (add_year year data) s)
  = Return (g + Z.of_nat (length (List.filter valid (items s data)))).
Proof.
  intros Hwy Hfy Hl Hly Hlt Hg. last_year_subst Hly.
  unfold eval in Hg. rewrite good_count_run in Hg. simpl in Hg.
  injection Hg as <-.
  destruct (add_year_append_gen s year data Hl Hfy Hwy Hlt)
    as (m & Hm & _ & _ & _ & Hs).
  unfold whole_years in Hwy. pose proof (len_nonneg (series_of s)).
  unfold eval. rewrite good_count_run, Hs. simpl. f_equal.
  rewrite !len_app, !count_app, !count_MISSING_times, !len_times by zsolve.
  pose proof (count_MISSING_valid (items s data)). lia.
Qed.

Lemma add_year_good_count_witness :
  eval good_count
    (exec (add_year 1903 (MISSING :: times 1%float 11)) series_1900)
  = Return (0 + Z.of_nat (length (List.filter valid (MISSING :: times 1%float 11)))).
Proof.
  apply (add_year_good_count series_1900 1903
           (by_value (MISSING :: times 1%float 11)) 1899 0).
  - vm_compute. reflexivity.
  - vm_compute. discriminate.
  - vm_compute. reflexivity.
  - vm_compute. reflexivity.
  - lia.
  - vm_compute. reflexivity.
Defined.

Lemma whole_years_assertion_by_value s year (v : list float) :
  len v = 12 ->
  (eval (add_year year v) s = AssertionError assert_whole_years
   <-> ~ whole_years s).
Proof.
  intros Hl. split.
  - intros He Hwy. unfold eval in He.
    destruct (add_year_cases s year v Hwy)
      as [(_ & E)|[(_ & _ & _ & E)|[(_ & _ & _ & E)|[(_ & _ & _ & E)
          |[(_ & _ & _ & E)|(_ & _ & _ & E)]]]]]; rewrite E in He; discriminate He.
  - intros Hn. destruct s as [fy sr my h]. py_run. rewrite Hl. simpl.
    py_cases; bool_to_prop; rewrite ?lookup_total_insert_eq, ?len_app in *;
      try done; try (rewrite len_times in * by lia); exfalso; apply Hn; zsolve.
Qed.

(** X7. The internal-consistency assertion [assert len(self) % 12 == 0]
    fires exactly when the series did not hold a whole number of years
    before the call: with twelve values, [add_year] raises it if and
    only if [len(series) % 12 != 0] on entry (the padding never repairs
    nor breaks the length), so it never fires on a series that only the
    class has changed. *)
Theorem whole_years_assertion_iff (s : state) (year : Z) (data : sequence) :
  len (items s data) = 12 ->
  (eval (add_year year data) s = AssertionError assert_whole_years
   <-> ~ whole_years s).
Proof.
  intros Hl. rewrite (add_year_eval_by_value s year data).
  by apply whole_years_assertion_by_value.
Qed.

(** [Series(1900, series=[1.0]*5)]: the assertion fires. *)
Lemma whole_years_assertion_iff_witness :
  eval (add_year 1900 (year_of 1%float)) (series_from_keyword (times 1%float 5))
  = AssertionError assert_whole_years
  <-> ~ whole_years (series_from_keyword (times 1%float 5)).
Proof.
  apply (whole_years_assertion_iff
           (series_from_keyword (times 1%float 5)) 1900 (year_of 1%float)).
  vm_compute. reflexivity.
Defined.

(** X8. On a series that holds a whole number of years the length and
    the year range agree: [len(series) == 12 * (last_year - first_year + 1)],
    and [last_year >= first_year - 1] with equality exactly when the
    series is empty. *)
Theorem len_last_year (s : state) (n ly : Z) :
  whole_years s ->
  eval __len__ s = Return n ->
  eval last_year s = Return ly ->
  n = 12 * (ly - first_year s + 1)
  /\ first_year s - 1 <= ly
  /\ (ly = first_year s - 1 <-> series_of s = []).
Proof.
  intros Hwy Hn Hly. last_year_subst Hly.
  unfold eval in Hn. rewrite dunder_len_run in Hn. simpl in Hn.
  injection Hn as <-. unfold whole_years in Hwy.
  pose proof (len_nonneg (series_of s)). split_and!; [zsolve|zsolve|].
  split.
  - intros Heq. apply len_nil_inv. zsolve.
  - intros ->. change (len []) with 0. zsolve.
Qed.

Lemma len_last_year_witness :
  48 = 12 * (1903 - first_year series_with_gap + 1)
  /\ first_year series_with_gap - 1 <= 1903
  /\ (1903 = first_year series_with_gap - 1 <-> series_of series_with_gap = []).
Proof.
  apply (len_last_year series_with_gap 48 1903).
  - vm_compute. reflexivity.
  - vm_compute. reflexivity.
  - vm_compute. reflexivity.
Defined.

Lemma count_MISSING_zero_valid (l : list float) :
  count MISSING l = 0 -> Forall (fun v => valid v = true) l.
Proof.
  unfold count. induction l as [|v l IH]; simpl; [constructor|].
  destruct (PrimFloat.eqb v MISSING) eqn:E; simpl length; [lia|].
  intros H. constructor; [|by apply IH].
  unfold valid, invalid. by rewrite E.
Qed.

(** X9. [good_count()] lies between 0 and the length of the series, it
    changes nothing, and it equals the length exactly when every stored
    value is valid. *)
Theorem good_count_bounds (s : state) :
  exists g,
    good_count s = (Return g, s)
    /\ 0 <= g <= len (series_of s)
    /\ (g = len (series_of s) <-> Forall (fun v => valid v = true) (series_of s)).
Proof.
  eexists. rewrite good_count_run. split; [reflexivity|].
  pose proof (count_MISSING_valid (series_of s)) as H.
  assert (0 <= count MISSING (series_of s)) by (unfold count; lia).
  split; [lia|]. split.
  - intros Heq. apply count_MISSING_zero_valid. lia.
  - intros Hv. rewrite count_MISSING_all_valid by done. lia.
Qed.

(** X10. For every year, with or without data, [get_a_year] returns a
    new list object of length 12 and changes nothing else; whatever the
    caller then stores in that list, every [get_a_year] call returns
    what it returned before. *)
Theorem get_a_year_fresh_list (s : state) (year : Z) :
  wf s ->
  exists r s',
    get_a_year year s = (Return r, s')
    /\ heap s !! r = None
    /\ len (contents s' r) = 12
    /\ first_year s' = first_year s
    /\ series s' = series s
    /\ (forall l, l <> r -> contents s' l = contents s l)
    /\ (forall v year',
          returned_list (get_a_year year') (store r v s')
          = returned_list (get_a_year year') s).
Proof.
  intros Hwf. destruct (fresh_not_internal s Hwf) as [Hr1 Hr2].
  destruct Hwf as (Ht & Hne & Hlive).
  assert (contents s (self_missing_year s) = times MISSING 12) as Htc.
  { unfold contents. by rewrite lookup_total_alt, Ht. }
  eexists _, _. rewrite get_a_year_run. cbv zeta. split; [reflexivity|].
  set (r := fresh (dom (heap s))) in *.
  set (b := (first_year s <=? year) && _).
  split_and!.
  - apply not_elem_of_dom. apply is_fresh.
  - rewrite contents_store_eq. destruct b eqn:Hb.
    + destruct (has_data_inside s year) as [H0 Hle].
      { unfold eval. rewrite has_data_for_year_run. simpl. by fold b; rewrite Hb. }
      by apply len_slice_inside.
    + by rewrite Htc.
  - done.
  - done.
  - intros l Hl. by apply contents_store_ne.
  - intros v year'. rewrite store_store, !returned_list_get_a_year. simpl.
    by rewrite series_of_store_ne, contents_store_ne.
Qed.

Lemma get_a_year_fresh_list_witness :
  exists r s',
    get_a_year 1903 series_with_gap = (Return r, s')
    /\ heap series_with_gap !! r = None
    /\ len (contents s' r) = 12
    /\ first_year s' = first_year series_with_gap
    /\ series s' = series series_with_gap
    /\ (forall l, l <> r -> contents s' l = contents series_with_gap l)
    /\ (forall v year',
          returned_list (get_a_year year') (store r v s')
          = returned_list (get_a_year year') series_with_gap).
Proof.
  apply (get_a_year_fresh_list series_with_gap 1903).
  unfold wf. split_and!.
  - vm_compute. reflexivity.
  - vm_compute. discriminate.
  - vm_compute. eexists. reflexivity.
Defined.

Lemma add_year_unset_nonempty_any s year (v : list float) :
  len v = 12 -> first_year s = 0 -> series_of s <> [] ->
  add_year year v s
  = (AssertionError
       (if len (series_of s) mod 12 =? 0
        then assert_next_year else assert_whole_years),
     State year (series s) (dict_missing_year s) (heap s)).
Proof.
  intros Hlen Hfy Hne. destruct s as [fy sr my h]. py_run. subst fy.
  rewrite Hlen. simpl.
  destruct (len (h !!! sr) mod 12 =? 0) eqn:Hwy; simpl; [|done].
  rewrite Z.ltb_irrefl. simpl.
  destruct (year =? _) eqn:E; [|done]. bool_to_prop.
  assert (len (h !!! sr) = 0) as H0 by zsolve.
  by apply len_nil_inv in H0.
Qed.

(** X11. Year zero.  While [first_year] is falsy and months are stored
    (as after [Series(0)] and [add_year(0, ...)]), every call
    [add_year(year, data)] with twelve values raises, at
    [assert year == self.last_year + 1] when a whole number of years is
    stored and at [assert len(self) % 12 == 0] otherwise; it stores
    nothing, and it has re-assigned [first_year = year]. *)
Theorem add_year_unanchored
    (s : state) (year : Z) (data : sequence) :
  first_year s = 0 -> series_of s <> [] -> len (items s data) = 12 ->
  let s' := exec (add_year year data) s in
  eval (add_year year data) s
  = AssertionError
      (if len (series_of s) mod 12 =? 0
       then assert_next_year else assert_whole_years)
  /\ first_year s' = year
  /\ series_of s' = series_of s
  /\ heap s' = heap s.
Proof.
  intros Hfy Hne Hl s'. subst s'. unfold eval, exec.
  rewrite add_year_no_padding by (by left).
  by rewrite add_year_unset_nonempty_any.
Qed.

Lemma add_year_unanchored_witness :
  let s := series_year_zero in
  let s' := exec (add_year 1 (year_of 2%float)) s in
  eval (add_year 1 (year_of 2%float)) s
  = AssertionError
      (if len (series_of s) mod 12 =? 0
       then assert_next_year else assert_whole_years)
  /\ first_year s' = 1
  /\ series_of s' = series_of s
  /\ heap s' = heap s.
Proof.
  apply (add_year_unanchored series_year_zero 1 (year_of 2%float)).
  - vm_compute. reflexivity.
  - vm_compute. discriminate.
  - vm_compute. reflexivity.
Defined.

(** The state after [Series(0)], [add_year(0, ...)] and the raising call
    [add_year(5, ...)]. *)
Lemma reachable_invariant_witness :
  wf (exec (add_year 5 (year_of 2%float)) series_year_zero)
  /\ whole_years (exec (add_year 5 (year_of 2%float)) series_year_zero).
Proof.
  apply (reachable_invariant (exec (add_year 5 (year_of 2%float)) series_year_zero)).
  apply reach_add_year, reach_add_year, reach_init; reflexivity.
Defined.

(** *** Feeding a series year by year *)

Lemma add_years_cons_Return year data rest s s1 :
  add_year year data s = (Return tt, s1) ->
  add_years ((year, data) :: rest) s = add_years rest s1.
Proof. intros H. simpl. by rewrite (bind_Return _ _ _ _ _ H). Qed.

Lemma add_years_cons_exec year data rest s :
  exec (add_years ((year, data) :: rest)) s = exec (add_year year data) s
  \/ exec (add_years ((year, data) :: rest)) s
     = exec (add_years rest) (exec (add_year year data) s).
Proof.
  unfold exec. simpl. unfold bind.
  destruct (add_year year data s) as [[[]|w] s1]; simpl; eauto.
Qed.

(** Years that have data keep it through the whole loop. *)
Lemma add_years_keeps calls : forall s y,
  first_year s <> 0 ->
  eval (has_data_for_year y) s = Return true ->
  first_year (exec (add_years calls) s) = first_year s
  /\ eval (has_data_for_year y) (exec (add_years calls) s) = Return true
  /\ returned_list (get_a_year y) (exec (add_years calls) s)
     = returned_list (get_a_year y) s.
Proof.
  induction calls as [|[year data] rest IH]; intros s y Hfy Hhas; [done|].
  destruct (add_year_keeps s year data y Hfy Hhas) as [Hhas1 Hget1].
  destruct (add_year_effect s year data) as (_ & _ & _ & _ & _ & Hf1 & _).
  specialize (Hf1 Hfy).
  destruct (add_years_cons_exec year data rest s) as [-> | ->]; [done|].
  destruct (IH (exec (add_year year data) s) y) as (Hf2 & Hhas2 & Hget2);
    [by rewrite Hf1 | done |].
  split_and!; [by rewrite Hf2 | done | by rewrite Hget2].
Qed.

(** A list object other than [self.series] stays that, with the same
    items, through any call. *)
Lemma add_year_items_stable s year (data c : sequence) :
  separate s c ->
  separate (exec (add_year year data) s) c
  /\ items (exec (add_year year data) s) c = items s c.
Proof.
  intros Hc.
  destruct (add_year_effect s year data) as (_ & _ & _ & Hsr & Hother & _).
  destruct c as [v|l]; [done|]. simpl in *. rewrite Hsr. split; [done|].
  by apply contents_lookup, Hother.
Qed.

Lemma add_years_run calls : forall s ly,
  whole_years s -> first_year s <> 0 ->
  first_year s + len (series_of s) / 12 - 1 = ly ->
  Forall (fun c => separate s c.2 /\ len (items s c.2) = 12) calls ->
  StronglySorted Z.lt (map fst calls) ->
  Forall (fun c => c.1 < first_year s \/ ly < c.1) calls ->
  eval (add_years calls) s = Return tt
  /\ first_year (exec (add_years calls) s) = first_year s
  /\ whole_years (exec (add_years calls) s)
  /\ eval last_year (exec (add_years calls) s)
     = Return (fold_left Z.max (map fst calls) ly)
  /\ Forall (fun c =>
               first_year s <= c.1 ->
               returned_list (get_a_year c.1) (exec (add_years calls) s)
               = Some (items s c.2)) calls.
Proof.
  induction calls as [|[year data] rest IH];
    intros s ly Hwy Hfy Hly Hlen Hsorted Hout.
  { subst ly. split_and!; try done. }
  apply Forall_cons in Hlen as [[Hsep Hl] Hlen]. simpl in Hsep, Hl.
  apply Forall_cons in Hout as [Hy Hout]. simpl in Hy.
  simpl in Hsorted. apply StronglySorted_inv in Hsorted as [Hsorted Hlt].
  pose proof (len_nonneg (series_of s)) as Hnn.
  assert (first_year s - 1 <= ly) as Hlow by (unfold whole_years in Hwy; zsolve).
  pose proof (add_year_separate s year data Hsep) as Esep.
  set (v := items s data) in *.
  destruct (decide (year < first_year s)) as [Hbefore|Hafter].
  - (* ignored *)
    pose proof (add_year_ignored s year v Hl Hfy Hwy Hbefore) as E.
    rewrite <- Esep in E.
    unfold eval, exec. rewrite (add_years_cons_Return _ _ _ _ _ E).
    destruct (IH s ly) as (He & Hf & Hwy' & Hly' & Hback); try done.
    split_and!; try done.
    + simpl. by replace (Z.max ly year) with ly by lia.
    + apply Forall_cons. split; [simpl; lia | done].
  - (* stored *)
    assert (ly < year) as Hgt by lia. subst ly.
    destruct (add_year_append_obs s year v Hl Hfy Hwy Hgt) as (He1 & Hf1 & _).
    destruct (add_year_append_shape s year v Hl Hfy Hwy Hgt)
      as (Hwy1 & _ & Hly1).
    pose proof (add_year_append_read_back s year v Hl Hfy Hwy Hgt) as Hback1.
    assert (exec (add_year year v) s = exec (add_year year data) s) as Eexec
      by (unfold exec; by rewrite Esep).
    set (s1 := exec (add_year year v) s) in *.
    assert (add_year year data s = (Return tt, s1)) as E.
    { rewrite Esep. unfold eval in He1. subst s1. unfold exec.
      destruct (add_year year v s) as [o s']. simpl in *. by subst o. }
    assert (Forall (fun c => separate s1 c.2 /\ len (items s1 c.2) = 12) rest
            /\ Forall (fun c => items s1 c.2 = items s c.2) rest)
      as [Hlen1 Hitems].
    { rewrite Eexec. split; apply Forall_forall; intros c Hc;
        rewrite Forall_forall in Hlen; destruct (Hlen c Hc) as [Hc1 Hc2];
        destruct (add_year_items_stable s year data c.2 Hc1) as [H1 H2];
        [split; [done|by rewrite H2] | done]. }
    clearbody s1.
    unfold eval, exec. rewrite (add_years_cons_Return _ _ _ _ _ E).
    destruct (IH s1 year) as (He & Hf & Hwy' & Hly' & Hback); try done.
    { by rewrite Hf1. }
    { apply Forall_forall. intros c Hc. right.
      rewrite Forall_forall in Hlt. apply Hlt.
      apply list_elem_of_In, in_map. by apply list_elem_of_In. }
    assert (eval (has_data_for_year year) s1 = Return true) as Hhas1.
    { unfold eval. rewrite has_data_for_year_run, Hly1, Hf1. simpl. f_equal.
      apply andb_true_intro. split; apply Z.leb_le; lia. }
    destruct (add_years_keeps rest s1 year) as (_ & _ & Hget); try done.
    { by rewrite Hf1. }
    split_and!; try done.
    + by rewrite <- Hf1.
    + simpl. by replace (Z.max _ year) with year by lia.
    + apply Forall_cons. split.
      * simpl. intros _. unfold exec in Hget. by rewrite Hget.
      * rewrite Hf1 in Hback. rewrite Forall_forall in Hback, Hitems.
        apply Forall_forall. intros c Hc Hge.
        rewrite <- (Hitems c Hc). by apply Hback.
Qed.

(** X13. Loading in order.  On a series with [first_year] set that
    holds a whole number of years, a loop that calls [add_year] for
    strictly increasing years, none of them inside the stored range
    [first_year .. last_year], each with a sequence of twelve values
    that is not the list [self.series] itself, never raises.
    Afterwards [first_year] is unchanged, the series holds a whole
    number of years, [last_year] is the largest of the old [last_year]
    and the years fed, and every year fed that is not before
    [first_year] reads back, through [get_a_year], as the data it was
    fed with. *)
Theorem add_years_in_order
    (s : state) (calls : list (Z * sequence)) (ly : Z) :
  whole_years s -> first_year s <> 0 ->
  eval last_year s = Return ly ->
  Forall (fun c => separate s c.2 /\ len (items s c.2) = 12) calls ->
  StronglySorted Z.lt (map fst calls) ->
  Forall (fun c => c.1 < first_year s \/ ly < c.1) calls ->
  let s' := exec (add_years calls) s in
  eval (add_years calls) s = Return tt
  /\ first_year s' = first_year s
  /\ whole_years s'
  /\ eval last_year s' = Return (fold_left Z.max (map fst calls) ly)
  /\ Forall (fun c =>
               first_year s <= c.1 ->
               returned_list (get_a_year c.1) s' = Some (items s c.2)) calls.
Proof.
  intros Hwy Hfy Hly Hlen Hsorted Hout s'. subst s'. last_year_subst Hly.
  by apply add_years_run.
Qed.

(** [Series(first_year=1900)] fed with 1898, 1900 (a list of the store,
    passed by reference) and 1903. *)
Lemma add_years_in_order_witness :
  let s := __init__ 1900 no_keywords (caller_heap (year_of 2%float)) in
  let calls := [(1898, by_value (year_of 1%float)); (1900, list_at caller_list);
                (1903, by_value (year_of 3%float))] in
  let s' := exec (add_years calls) s in
  eval (add_years calls) s = Return tt
  /\ first_year s' = first_year s
  /\ whole_years s'
  /\ eval last_year s' = Return (fold_left Z.max (map fst calls) 1899)
  /\ Forall (fun c =>
               first_year s <= c.1 ->
               returned_list (get_a_year c.1) s' = Some (items s c.2)) calls.
Proof.
  apply (add_years_in_order
           (__init__ 1900 no_keywords (caller_heap (year_of 2%float)))
           [(1898, by_value (year_of 1%float)); (1900, list_at caller_list);
            (1903, by_value (year_of 3%float))] 1899).
  - vm_compute. reflexivity.
  - vm_compute. discriminate.
  - vm_compute. reflexivity.
  - apply Forall_cons; split; [split; [exact I|vm_compute; reflexivity]|].
    apply Forall_cons; split;
      [split; [vm_compute; discriminate|vm_compute; reflexivity]|].
    apply Forall_cons; split; [split; [exact I|vm_compute; reflexivity]|].
    constructor.
  - vm_compute. repeat constructor.
  - apply Forall_cons; split; [left; vm_compute; reflexivity|].
    apply Forall_cons; split; [right; vm_compute; reflexivity|].
    apply Forall_cons; split; [right; vm_compute; reflexivity|].
    constructor.
Defined.

(** X14. Passing the list itself.  On a series with [first_year] set
    that holds exactly one year, the call [s.add_year(year, s.series)]
    with [year > first_year] returns normally; the padding for the
    skipped years lengthens the list before it is appended to itself,
    so the series ends up as the padded list twice, with
    [24 * (year - first_year)] months and
    [last_year == 2 * year - first_year - 1]. *)
Theorem add_year_with_own_series (s : state) (year : Z) :
  len (series_of s) = 12 -> first_year s <> 0 -> first_year s < year ->
  let data := list_at (series s) in
  let s' := exec (add_year year data) s in
  let padded :=
    series_of s ++ times MISSING ((year - first_year s - 1) * 12) in
  eval (add_year year data) s = Return tt
  /\ first_year s' = first_year s
  /\ series_of s' = padded ++ padded
  /\ eval __len__ s' = Return (24 * (year - first_year s))
  /\ eval last_year s' = Return (2 * year - first_year s - 1).
Proof.
  intros Hl Hfy Hlt data s' padded. subst data s'.
  unfold eval at 1, exec. rewrite add_year_aliased by done. simpl.
  fold padded. set (s' := store _ _ _).
  assert (first_year s' = first_year s) as Hf by done.
  assert (series_of s' = padded ++ padded) as Hs
    by (unfold s', series_of at 1; simpl; by rewrite contents_store_eq).
  assert (len (series_of s') = 24 * (year - first_year s)) as Hlen.
  { rewrite Hs. subst padded. rewrite !len_app, len_times, Hl by lia. lia. }
  clearbody s'. split_and!; try done; unfold eval.
  - rewrite dunder_len_run. simpl. by rewrite Hlen.
  - rewrite last_year_run, Hlen, Hf. simpl. f_equal. zsolve.
Qed.

(** One year stored, then [s.add_year(1902, s.series)]: 48 months and
    [last_year == 1903]. *)
Lemma add_year_with_own_series_witness :
  let s := exec (add_year 1900 (year_of 1%float)) series_1900 in
  let data := list_at (series s) in
  let s' := exec (add_year 1902 data) s in
  let padded := series_of s ++ times MISSING ((1902 - first_year s - 1) * 12) in
  eval (add_year 1902 data) s = Return tt
  /\ first_year s' = first_year s
  /\ series_of s' = padded ++ padded
  /\ eval __len__ s' = Return (24 * (1902 - first_year s))
  /\ eval last_year s' = Return (2 * 1902 - first_year s - 1).
Proof.
  apply (add_year_with_own_series
           (exec (add_year 1900 (year_of 1%float)) series_1900) 1902).
  - vm_compute. reflexivity.
  - vm_compute. discriminate.
  - vm_compute. reflexivity.
Defined.
